(** * twitter_sentiment_analysis: a shallow embedding of the analysis pipeline

    The development follows the Python sources module by module:
    - [PyStr]         the [str] methods and character classes the code relies on,
    - [Utils]         [utils.py]   ([clean_text] and its compiled patterns),
    - [Sentiment]     [sentiment.py] ([score_to_label]),
    - [TwitterClient] [twitter_client.py] (user lookup, pagination, rate limits),
    - [Domain]        [domain.py] (lexicon loading, keyword and zero-shot labelling).
    The properties follow in [UtilsFacts], [SentimentFacts],
    [TwitterClientFacts] and [DomainFacts].

    Text is a [string] whose characters are code points U+0000..U+00FF; on that
    range [str.lower], [str.isspace], [str.isdigit] and the classes [\s] and
    [\w] of [re] are closed and are tabulated below as CPython defines them.
    Python floats are IEEE binary64 values, given by [spec_float]. *)

From Stdlib Require Import ZArith Bool Lia Ascii String.
From Stdlib Require Import Floats.SpecFloat.
From stdpp Require Import base option list strings gmap.

Open Scope string_scope.
Open Scope Z_scope.
Open Scope list_scope.

(* ===================================================================== *)
(** ** Python strings                                                     *)
(* ===================================================================== *)

Module PyStr.

Definition code (c : ascii) : N := N_of_ascii c.

Definition between (lo hi n : N) : bool := ((lo <=? n) && (n <=? hi))%N.

(** [str.isspace] on one character, which is also the class [\s] of a
    [str] pattern: TAB..CR, FS..US, SPACE, NEL and NBSP. *)
Definition is_space (c : ascii) : bool :=
  let n := code c in
  between 9 13 n || between 28 32 n || (n =? 133)%N || (n =? 160)%N.

(** The class [\w] of a [str] pattern: [str.isalnum] or the underscore. *)
Definition is_word (c : ascii) : bool :=
  let n := code c in
  between 48 57 n || between 65 90 n || (n =? 95)%N || between 97 122 n
  || (n =? 170)%N || between 178 179 n || (n =? 181)%N || between 185 186 n
  || between 188 190 n || between 192 214 n || between 216 246 n
  || between 248 255 n.

(** [str.isdigit] on one character: the decimal digits and the
    superscripts one, two and three. *)
Definition is_digit (c : ascii) : bool :=
  let n := code c in
  between 48 57 n || between 178 179 n || (n =? 185)%N.

(** The characters [int] accepts as decimal digits. *)
Definition is_decimal (c : ascii) : bool := between 48 57 (code c).

(** [str.lower] on one character: A..Z and the accented capitals
    U+00C0..U+00DE (the multiplication sign U+00D7 excepted) move up by 32. *)
Definition lower_char (c : ascii) : ascii :=
  let n := code c in
  if between 65 90 n || (between 192 222 n && negb (n =? 215)%N)
  then ascii_of_N (n + 32) else c.

Fixpoint lower (s : string) : string :=
  match s with
  | EmptyString => EmptyString
  | String c s' => String (lower_char c) (lower s')
  end.

Definition is_empty (s : string) : bool :=
  match s with EmptyString => true | String _ _ => false end.

(** [str.lstrip], [str.rstrip] and [str.strip] without argument. *)
Fixpoint lstrip (s : string) : string :=
  match s with
  | EmptyString => EmptyString
  | String c s' => if is_space c then lstrip s' else s
  end.

Fixpoint rstrip (s : string) : string :=
  match s with
  | EmptyString => EmptyString
  | String c s' =>
      let r := rstrip s' in
      if is_space c && is_empty r then EmptyString else String c r
  end.

Definition strip (s : string) : string := rstrip (lstrip s).

(** [s.startswith(p)]. *)
Fixpoint starts_with (p s : string) : bool :=
  match p, s with
  | EmptyString, _ => true
  | String _ _, EmptyString => false
  | String a p', String b s' => Ascii.eqb a b && starts_with p' s'
  end.

(** [p in s]: [p] occurs in [s] as a substring. *)
Fixpoint contains (p s : string) : bool :=
  starts_with p s ||
  match s with
  | EmptyString => false
  | String _ s' => contains p s'
  end.

Fixpoint all_chars (f : ascii -> bool) (s : string) : bool :=
  match s with
  | EmptyString => true
  | String c s' => f c && all_chars f s'
  end.

(** [str.isdigit]: non-empty and every character a digit. *)
Definition isdigit (s : string) : bool := negb (is_empty s) && all_chars is_digit s.

Fixpoint decimal_value (acc : Z) (s : string) : Z :=
  match s with
  | EmptyString => acc
  | String c s' => decimal_value (10 * acc + (Z.of_N (code c) - 48)) s'
  end.

(** [int(s)] on a string for which [isdigit] holds: the decimal value, or
    [None] for the [ValueError] that a superscript digit causes.

    CPython's configurable cap on the number of digits [int] converts
    (4300 by default since 3.11) is not modelled. *)
Definition int_of_digits (s : string) : option Z :=
  if negb (is_empty s) && all_chars is_decimal s then Some (decimal_value 0 s) else None.

(** Truth value of a [str], and of an optional one ([None] is false). *)
Definition truthy (s : string) : bool := negb (is_empty s).

Definition truthy_opt (o : option string) : bool :=
  match o with Some s => truthy s | None => false end.

(** [a or b] on optional strings. *)
Definition or_else (a b : option string) : option string :=
  if truthy_opt a then a else b.

End PyStr.

(* ===================================================================== *)
(** ** utils.py                                                           *)
(* ===================================================================== *)

Module Utils.
Import PyStr.

Definition nonspace_head (s : string) : bool :=
  match s with
  | EmptyString => false
  | String c _ => negb (is_space c)
  end.

Fixpoint drop_chars (n : nat) (s : string) : string :=
  match n, s with
  | O, _ => s
  | S _, EmptyString => EmptyString
  | S n', String _ s' => drop_chars n' s'
  end.

(** [URL_RE = re.compile(r"https?://\S+")] matches at the head of [s]:
    the scheme, then at least one character that is not whitespace. *)
Definition url_at (s : string) : bool :=
  (starts_with "http://" s && nonspace_head (drop_chars 7 s))
  || (starts_with "https://" s && nonspace_head (drop_chars 8 s)).

(** [URL_RE.sub(" ", text)].  Every character of the scheme is outside
    [\s] and [\S+] is greedy, so a match is the whole run of non-whitespace
    characters from its first [h]; [inside] says that the scan is within
    such a run, whose characters are dropped. *)
Fixpoint sub_url (inside : bool) (s : string) : string :=
  match s with
  | EmptyString => EmptyString
  | String c s' =>
      if inside then
        if is_space c then String c (sub_url false s') else sub_url true s'
      else if url_at s then String " " (sub_url true s')
      else String c (sub_url false s')
  end.

Definition word_head (s : string) : bool :=
  match s with
  | EmptyString => false
  | String c _ => is_word c
  end.

(** [MENTION_RE = re.compile(r"@\w+")] matches at the head of [s]. *)
Definition mention_at (s : string) : bool :=
  match s with
  | String "@" s' => word_head s'
  | _ => false
  end.

(** [MENTION_RE.sub(" ", text)]: a match takes the [@] and the greedy run
    of word characters after it; the scan resumes right behind the run,
    where another [@] may start the next match. *)
Fixpoint sub_mention (inside : bool) (s : string) : string :=
  match s with
  | EmptyString => EmptyString
  | String c s' =>
      if inside && is_word c then sub_mention true s'
      else if mention_at s then String " " (sub_mention true s')
      else String c (sub_mention false s')
  end.

(** [HASHTAG_RE.sub("", text)] with [HASHTAG_RE = re.compile(r"#")]. *)
Fixpoint sub_hashtag (s : string) : string :=
  match s with
  | EmptyString => EmptyString
  | String c s' => if Ascii.eqb c "#" then sub_hashtag s' else String c (sub_hashtag s')
  end.

(** [re.sub(pat, rep, text)] for a pattern without metacharacters:
    leftmost non-overlapping occurrences; [skip] counts the characters of
    the current occurrence that are still to be passed over. *)
Fixpoint sub_literal (pat rep : string) (skip : nat) (s : string) : string :=
  match s with
  | EmptyString => EmptyString
  | String c s' =>
      match skip with
      | S k => sub_literal pat rep k s'
      | O =>
          if starts_with pat s
          then rep +:+ sub_literal pat rep (Nat.pred (String.length pat)) s'
          else String c (sub_literal pat rep O s')
      end
  end.

(** [MULTISPACE_RE.sub(" ", text)] with [MULTISPACE_RE = re.compile(r"\s+")]:
    each maximal run of whitespace becomes one space. *)
Fixpoint sub_multispace (inside : bool) (s : string) : string :=
  match s with
  | EmptyString => EmptyString
  | String c s' =>
      if is_space c then
        if inside then sub_multispace true s' else String " " (sub_multispace true s')
      else String c (sub_multispace false s')
  end.

Definition clean_text (text : option string) : string :=
  let text := match or_else text (Some "") with Some t => t | None => "" end in
  let text := sub_url false text in
  let text := sub_mention false text in
  let text := sub_hashtag text in
  let text := sub_literal "&amp;" "&" O text in
  let text := sub_literal "&lt;" "<" O text in
  let text := sub_literal "&gt;" ">" O text in
  let text := sub_multispace false text in
  lower (strip text).

(** What a second pass could still rewrite: a match of one of the six
    patterns that [clean_text] substitutes before collapsing whitespace. *)
Fixpoint has_url (s : string) : bool :=
  url_at s || match s with EmptyString => false | String _ s' => has_url s' end.

Fixpoint has_mention (s : string) : bool :=
  mention_at s || match s with EmptyString => false | String _ s' => has_mention s' end.

(** Normal forms: no whitespace at the head; and, after a character that
    was whitespace or not ([prev]), only single spaces as whitespace. *)
Definition head_ok (s : string) : bool :=
  match s with
  | EmptyString => true
  | String c _ => negb (is_space c)
  end.

Fixpoint single_spaced (prev : bool) (s : string) : bool :=
  match s with
  | EmptyString => true
  | String c s' =>
      if is_space c then Ascii.eqb c " " && negb prev && single_spaced true s'
      else single_spaced false s'
  end.

Definition pattern_free (s : string) : bool :=
  negb (has_url s) && negb (has_mention s) && negb (contains "#" s)
  && negb (contains "&amp;" s) && negb (contains "&lt;" s) && negb (contains "&gt;" s).

End Utils.

(* ===================================================================== *)
(** ** sentiment.py                                                       *)
(* ===================================================================== *)

Module Sentiment.

(** Python's [float]: a binary64 value. *)
Definition float := spec_float.

(** The literal [0.05] is the double 7205759403792794 * 2^-57. *)
Definition f_0_05 : float := S754_finite false 7205759403792794 (-57).
Definition f_neg_0_05 : float := SFopp f_0_05.
(** The literal [0.049] is the double 7061644215716938 * 2^-57. *)
Definition f_0_049 : float := S754_finite false 7061644215716938 (-57).

(** [a >= b] and [a <= b] on floats; both are false when an operand is NaN. *)
Definition float_ge (a b : float) : bool := SFleb b a.
Definition float_le (a b : float) : bool := SFleb a b.

Definition score_to_label (compound : float) : string :=
  if float_ge compound f_0_05 then "Positive"
  else if float_le compound f_neg_0_05 then "Negative"
  else "Neutral".

End Sentiment.

(* ===================================================================== *)
(** ** Exceptions and results                                             *)
(* ===================================================================== *)

Module PyExn.

(** The [headers] attribute of a response object. *)
Inductive HeadersAttr :=
| HeadersMissing                           (* [hasattr(resp, "headers")] is false *)
| HeadersNone                              (* the attribute is [None] *)
| HeadersDict (h : gmap string string).

(** The object found in the [response] attribute of an exception.
    [resp_truthy] is what [bool(resp)] gives: [not resp] consults it. *)
Record HttpResponse := mkHttpResponse {
  resp_truthy : bool;
  resp_headers : HeadersAttr
}.

(** A [requests.Response], the object Tweepy stores in its HTTP
    exceptions: its [__bool__] is its [ok] property, true exactly for a
    status code below 400. *)
Definition requests_response (status_code : Z) (h : gmap string string) : HttpResponse :=
  {| resp_truthy := status_code <? 400; resp_headers := HeadersDict h |}.

Inductive Exn :=
| TooManyRequests (response : option HttpResponse)   (* [tweepy.errors.TooManyRequests] *)
| TweepyException                                    (* any other [TweepyException] *)
| ValueError
| IndexError
| KeyError
| OSError                                            (* [open] or a read failed *)
| JSONDecodeError                                    (* [json.load] rejected the text *)
| OtherException                                     (* any other [Exception] *)
| RateLimitError (retry_after_seconds : option Z)
| RuntimeError (message : string) (cause : Exn).

Inductive result (A : Type) :=
| Return (a : A)
| Raise (e : Exn).
Arguments Return {A} a.
Arguments Raise {A} e.

Definition bind {A B} (m : result A) (k : A -> result B) : result B :=
  match m with
  | Return a => k a
  | Raise e => Raise e
  end.

(** [try: body  except Exception: return v]. *)
Definition try_except {A} (body : result A) (v : A) : A :=
  match body with
  | Return a => a
  | Raise _ => v
  end.

End PyExn.

(* ===================================================================== *)
(** ** twitter_client.py                                                  *)
(* ===================================================================== *)

Module TwitterClient.
Import PyStr PyExn.

(** [int(s)]; a string of digits that are not all decimal raises. *)
Definition py_int (s : string) : result Z :=
  match int_of_digits s with
  | Some n => Return n
  | None => Raise ValueError
  end.

(** [getattr(e, "response", None)]. *)
Definition response_of (e : Exn) : option HttpResponse :=
  match e with
  | TooManyRequests r => r
  | _ => None
  end.

Definition has_headers (resp : HttpResponse) : bool :=
  match resp_headers resp with
  | HeadersMissing => false
  | _ => true
  end.

(** [resp.headers or {}]. *)
Definition headers_or_empty (resp : HttpResponse) : gmap string string :=
  match resp_headers resp with
  | HeadersDict h => h
  | _ => ∅
  end.

(** [v and str(v).isdigit()] for a header value. *)
Definition numeric (v : option string) : bool :=
  match v with
  | Some s => truthy s && isdigit s
  | None => false
  end.

Definition str_of (v : option string) : string :=
  match v with Some s => s | None => "" end.

(** The [try] block of [_retry_after_from_response]; [now] is [int(now())]. *)
Definition retry_after_body (now : Z) (e : Exn) : result (option Z) :=
  match response_of e with
  | None => Return None
  | Some resp =>
      if negb (resp_truthy resp) || negb (has_headers resp) then Return None
      else
        let headers := headers_or_empty resp in
        let retry_after := or_else (headers !! "retry-after") (headers !! "Retry-After") in
        if numeric retry_after then
          bind (py_int (str_of retry_after)) (fun n => Return (Some n))
        else
          let reset_epoch :=
            or_else (headers !! "x-rate-limit-reset") (headers !! "X-Rate-Limit-Reset") in
          if numeric reset_epoch then
            bind (py_int (str_of reset_epoch)) (fun n => Return (Some (Z.max 0 (n - now))))
          else Return None
  end.

Definition _retry_after_from_response (now : Z) (e : Exn) : option Z :=
  try_except (retry_after_body now e) None.

Record User := mkUser { user_id : string; user_name : string }.

Record Tweet := mkTweet { tweet_id : string; tweet_text : string }.

(** The keyword arguments of [client.get_users_tweets]. *)
Record Request := mkRequest {
  req_id : string;
  req_max_results : Z;
  req_exclude : option (list string);
  req_start_time : option Z;
  req_end_time : option Z;
  req_tweet_fields : list string;
  req_pagination_token : option string
}.

(** A [tweepy.Response]: [data] is [None] when the API sent no items,
    [meta] is a dictionary or [None]. *)
Record Response := mkResponse {
  data : option (list Tweet);
  meta : option (gmap string string)
}.

(** [resp.meta.get("next_token") if resp.meta else None]. *)
Definition next_token (resp : Response) : option string :=
  match meta resp with
  | Some m => if decide (m = ∅) then None else m !! "next_token"
  | None => None
  end.

(** Where a run of the pagination loop stands. *)
Inductive Status :=
| Returned                 (* reached [return collected] *)
| Raised (e : Exn)         (* an upstream call raised; nothing catches it *)
| Running.                 (* still iterating when the step budget ran out *)

Record Run (St : Type) := mkRun {
  run_state : St;
  run_requests : nat;
  run_collected : list Tweet;
  run_status : Status
}.
Arguments mkRun {St}.
Arguments run_state {St}.
Arguments run_requests {St}.
Arguments run_collected {St}.
Arguments run_status {St}.

Section Client.
(** [self.client]: a stateful upstream with the two calls the wrapper uses. *)
Context {St : Type}.
Variable api_get_user : St -> string -> St * result (option User).
Variable api_get_users_tweets : St -> Request -> St * result Response.

Definition get_user_by_username (now : Z) (st : St) (username : string)
  : St * result (option User) :=
  let (st', r) := api_get_user st username in
  match r with
  | Return resp_data => (st', Return resp_data)
  | Raise (TooManyRequests response) =>
      let retry_after := _retry_after_from_response now (TooManyRequests response) in
      (st', Raise (RateLimitError retry_after))
  | Raise TweepyException =>
      (st', Raise (RuntimeError ("Error fetching user '" +:+ username +:+ "'") TweepyException))
  | Raise e => (st', Raise e)
  end.

Section Tweets.
Variables (user_id : string) (exclude : list string).
Variables (start_time end_time : option Z).

(** The [while remaining > 0] loop; [fuel] bounds the iterations and
    [n] counts the requests sent so far. *)
Fixpoint fetch_loop (fuel : nat) (st : St) (collected : list Tweet)
    (pagination_token : option string) (remaining : Z) (n : nat) : Run St :=
  if remaining >? 0 then
    match fuel with
    | O => mkRun st n collected Running
    | S fuel' =>
        let limit := Z.min 100 remaining in
        let (st', r) :=
          api_get_users_tweets st
            {| req_id := user_id;
               req_max_results := limit;
               req_exclude := match exclude with [] => None | _ => Some exclude end;
               req_start_time := start_time;
               req_end_time := end_time;
               req_tweet_fields := ["created_at"; "public_metrics"];
               req_pagination_token := pagination_token |} in
        match r with
        | Raise e => mkRun st' (S n) collected (Raised e)
        | Return resp =>
            match data resp with
            | None => mkRun st' (S n) collected Returned
            | Some items =>
                let collected := collected ++ items in
                let remaining := remaining - Z.of_nat (length items) in
                let pagination_token := next_token resp in
                if negb (truthy_opt pagination_token)
                then mkRun st' (S n) collected Returned
                else fetch_loop fuel' st' collected pagination_token remaining (S n)
            end
        end
    end
  else mkRun st n collected Returned.

End Tweets.

Definition exclude_list (exclude_replies exclude_retweets : bool) : list string :=
  (if exclude_replies then ["replies"] else [])
  ++ (if exclude_retweets then ["retweets"] else []).

(** [get_user_tweets], as the run of its loop. *)
Definition get_user_tweets_run (fuel : nat) (st : St) (user_id : string)
    (max_results : Z) (exclude_replies exclude_retweets : bool)
    (start_time end_time : option Z) : Run St :=
  let collected : list Tweet := [] in
  let exclude := exclude_list exclude_replies exclude_retweets in
  let pagination_token : option string := None in
  let remaining := Z.max 1 max_results in
  fetch_loop user_id exclude start_time end_time fuel st collected pagination_token remaining O.

(** What the caller of [get_user_tweets] observes, if the loop ends
    within [fuel] iterations. *)
Definition get_user_tweets (fuel : nat) (st : St) (user_id : string)
    (max_results : Z) (exclude_replies exclude_retweets : bool)
    (start_time end_time : option Z) : option (result (list Tweet)) :=
  let r := get_user_tweets_run fuel st user_id max_results
             exclude_replies exclude_retweets start_time end_time in
  match run_status r with
  | Returned => Some (Return (run_collected r))
  | Raised e => Some (Raise e)
  | Running => None
  end.

End Client.

(** Two upstreams to run the client against. *)

(** A timeline of [feed] holding the posts not served yet: a page is the
    first [max_results] of them, with a token while more remain. *)
Definition feed_server (feed : list Tweet) (req : Request) : list Tweet * result Response :=
  let k := Z.to_nat (req_max_results req) in
  let page := take k feed in
  let rest := drop k feed in
  (rest, Return {| data := match page with [] => None | _ => Some page end;
                   meta := match rest with
                           | [] => Some ∅
                           | _ => Some {[ "next_token" := "more" ]}
                           end |}).

(** A scripted upstream: the outcomes are handed out in order whatever
    the request; once they are used up the call raises. *)
Definition script_server (script : list (result Response)) (req : Request)
  : list (result Response) * result Response :=
  match script with
  | [] => ([], Raise OtherException)
  | r :: script' => (script', r)
  end.

(** The upstream never returns more items than the page size it was asked for. *)
Definition respects_page_size {St} (api : St -> Request -> St * result Response) : Prop :=
  forall st req st' resp items,
    api st req = (st', Return resp) -> data resp = Some items ->
    Z.of_nat (length items) <= req_max_results req.

Definition sample_feed : list Tweet :=
  [ mkTweet "1" "first"; mkTweet "2" "second"; mkTweet "3" "third" ].

End TwitterClient.


(* ===================================================================== *)
(** ** domain.py                                                          *)
(* ===================================================================== *)

Module Domain.
Import PyStr PyExn.

(** A [dict] with string keys, in insertion order. *)
Definition Dict (V : Type) := list (string * V).

Fixpoint dict_get {V} (d : Dict V) (k : string) : option V :=
  match d with
  | [] => None
  | (k', v) :: d' => if decide (k' = k) then Some v else dict_get d' k
  end.

(** [d[k] = v]: an existing key keeps its place. *)
Fixpoint dict_set {V} (d : Dict V) (k : string) (v : V) : Dict V :=
  match d with
  | [] => [(k, v)]
  | (k', v') :: d' => if decide (k' = k) then (k', v) :: d' else (k', v') :: dict_set d' k v
  end.

Definition dict_keys {V} (d : Dict V) : list string := map fst d.

(** [{k: f(k) for k in ks}]. *)
Definition dict_comprehension {V} (f : string -> V) (ks : list string) : Dict V :=
  fold_left (fun d k => dict_set d k (f k)) ks [].

(** [d[k]] in an expression. *)
Definition dict_index {V} (d : Dict V) (k : string) : result V :=
  match dict_get d k with
  | Some v => Return v
  | None => Raise KeyError
  end.

Definition Lexicon := Dict (list string).

Definition BUILTIN_DOMAIN_LABELS : list string :=
  [ "Politics"; "Sports"; "Education"; "Technology"; "Entertainment";
    "Business"; "Health"; "Science"; "Travel"; "Environment" ].

Definition BUILTIN_KEYWORD_LEXICON : Lexicon :=
  [ ("Politics",
      [ "election"; "policy"; "government"; "senate"; "parliament"; "minister"; "president";
        "vote"; "campaign"; "politics"; "congress"; "diplomacy"; "democracy" ]);
    ("Sports",
      [ "match"; "game"; "tournament"; "league"; "goal"; "score"; "coach"; "athlete";
        "football"; "soccer"; "nba"; "cricket"; "tennis"; "olympics" ]);
    ("Education",
      [ "school"; "college"; "university"; "curriculum"; "exam"; "teacher"; "student";
        "degree"; "research"; "scholarship"; "classroom" ]);
    ("Technology",
      [ "ai"; "artificial intelligence"; "software"; "hardware"; "app"; "coding"; "programming";
        "cloud"; "saas"; "api"; "data"; "ml"; "blockchain"; "crypto"; "startup" ]);
    ("Entertainment",
      [ "movie"; "film"; "music"; "album"; "song"; "celebrity"; "tv"; "series"; "hollywood";
        "bollywood"; "concert"; "festival" ]);
    ("Business",
      [ "market"; "stock"; "revenue"; "profit"; "merger"; "acquisition"; "startup"; "funding";
        "economy"; "inflation"; "trade"; "sales"; "earnings" ]);
    ("Health",
      [ "hospital"; "doctor"; "nurse"; "vaccine"; "covid"; "disease"; "medicine"; "mental health";
        "fitness"; "diet"; "wellness" ]);
    ("Science",
      [ "research"; "study"; "experiment"; "theory"; "physics"; "chemistry"; "biology";
        "astronomy"; "space"; "quantum"; "lab" ]);
    ("Travel",
      [ "flight"; "airport"; "hotel"; "tour"; "trip"; "journey"; "visa"; "tourism"; "itinerary" ]);
    ("Environment",
      [ "climate"; "emissions"; "sustainability"; "wildlife"; "conservation"; "pollution";
        "renewable"; "recycling"; "ecosystem" ]) ].

(** A value decoded by [json.load]; the keys of an object are strings. *)
#[warnings="-register-all"]
Inductive JSON :=
| JNull
| JBool (b : bool)
| JInt (n : Z)
| JFloat (f : spec_float)
| JString (s : string)
| JArray (items : list JSON)
| JObject (items : list (string * JSON)).

(** What is found at a path. *)
Inductive FileState :=
| Absent                       (* [os.path.exists] is false *)
| Unreadable                   (* [open] or the read raises [OSError] *)
| Malformed                    (* [json.load] raises *)
| Parsed (v : JSON).

Record World := mkWorld {
  getcwd : result string;
  file_at : string -> FileState
}.

(** [os.path.join(a, b)] for a relative [b]. *)
Fixpoint ends_with_slash (a : string) : bool :=
  match a with
  | EmptyString => false
  | String c EmptyString => Ascii.eqb c "/"
  | String _ a' => ends_with_slash a'
  end.

Definition os_path_join (a b : string) : string :=
  if is_empty a then b
  else if ends_with_slash a then a +:+ b
  else a +:+ "/" +:+ b.

(** A Python [float] as the pipeline produces it: the image of an integer
    under [float(...)], kept as that integer, or a binary64 value. *)
Inductive PyFloat :=
| OfInt (n : Z)
| Binary64 (f : spec_float).

(** [x == 0] on such a float; [float(n)] is zero for no integer but 0. *)
Definition float_is_zero (x : PyFloat) : bool :=
  match x with
  | OfInt n => n =? 0
  | Binary64 f => SFeqb f (S754_zero false)
  end.

(** A row of the frame: the cleaned text and, once classified, the domain. *)
Record Row := mkRow {
  text_clean : string;
  domain_label : option string;
  domain_confidence : option PyFloat
}.

Definition DataFrame := list Row.

Definition set_domain (assignment : string * PyFloat) (r : Row) : Row :=
  {| text_clean := text_clean r;
     domain_label := Some (fst assignment);
     domain_confidence := Some (snd assignment) |}.

(** [series.apply(f)], stopping at the first call that raises. *)
Fixpoint series_apply {A B} (f : A -> result B) (l : list A) : result (list B) :=
  match l with
  | [] => Return []
  | a :: l' => bind (f a) (fun b => bind (series_apply f l') (fun bs => Return (b :: bs)))
  end.

(** [max(items, key=lambda kv: kv[1])]: the first item whose value is
    largest; [ValueError] on no items. *)
Fixpoint max_from (best : string * Z) (items : list (string * Z)) : string * Z :=
  match items with
  | [] => best
  | kv :: items' => max_from (if snd best <? snd kv then kv else best) items'
  end.

Definition py_max (items : list (string * Z)) : result (string * Z) :=
  match items with
  | [] => Raise ValueError
  | kv :: items' => Return (max_from kv items')
  end.

(** [_keyword_score(text, keywords)]. *)
Definition _keyword_score (text : string) (keywords : list string) : Z :=
  let text_lc := lower text in
  Z.of_nat (length (filter (fun kw => contains kw text_lc = true) keywords)).

(** [(method or "keyword").strip().lower()]. *)
Definition method_norm (method : option string) : string :=
  lower (strip (default "keyword" (or_else method (Some "keyword")))).

(** The module-level names after import. *)
Record Globals := mkGlobals {
  KEYWORD_LEXICON : Lexicon;
  DEFAULT_DOMAIN_LABELS : list string
}.

Definition builtin_globals : Globals :=
  {| KEYWORD_LEXICON := BUILTIN_KEYWORD_LEXICON;
     DEFAULT_DOMAIN_LABELS := BUILTIN_DOMAIN_LABELS |}.

(** The file holds a JSON object, the only content that can override. *)
Definition overrides (fs : FileState) : bool :=
  match fs with
  | Parsed (JObject _) => true
  | _ => false
  end.

(** The keys of [ks] in order of first appearance, those in [seen] left out. *)
Fixpoint first_seen (seen ks : list string) : list string :=
  match ks with
  | [] => []
  | k :: ks' =>
      if decide (k ∈ seen) then first_seen seen ks'
      else k :: first_seen (seen ++ [k]) ks'
  end.

Section Builtins.
(** [str.title], [str(v)] for a decoded value [v] that is not a [str], and
    the zero-shot pipeline of [transformers] ([None] when it cannot be
    built), which maps a text and the labels to ranked labels and scores. *)
Variable str_title : string -> string.
Variable py_str : JSON -> string.
Variable pipeline : option (string -> list string -> list string * list spec_float).

Definition _normalize_label (label : string) : string :=
  str_title (Utils.sub_multispace false (strip label)).

Definition str_of_json (v : JSON) : string :=
  match v with
  | JString s => s
  | _ => py_str v
  end.

(** One turn of [for raw_label, keywords in data.items()]. *)
Definition add_entry (lex : Lexicon) (item : string * JSON) : Lexicon :=
  let (raw_label, keywords) := item in
  let label := _normalize_label raw_label in
  match keywords with
  | JArray ks =>
      let kw := map (fun k => lower (strip (str_of_json k)))
                    (filter (fun k => truthy (strip (str_of_json k)) = true) ks) in
      match kw with
      | [] => lex
      | _ => dict_set lex label kw
      end
  | _ => lex
  end.

(** [path or os.path.join(os.getcwd(), "domain_classification.json")]. *)
Definition candidate_path (w : World) (path : option string) : result string :=
  if truthy_opt path then Return (default "" path)
  else bind (getcwd w) (fun cwd => Return (os_path_join cwd "domain_classification.json")).

(** The [try] block of [_load_external_lexicon]. *)
Definition load_body (w : World) (path : option string) : result (option Lexicon) :=
  bind (candidate_path w path)
    (fun candidate_path =>
       match file_at w candidate_path with
       | Absent => Return None
       | Unreadable => Raise OSError
       | Malformed => Raise JSONDecodeError
       | Parsed data =>
           match data with
           | JObject items =>
               let lex := fold_left add_entry items [] in
               Return (match lex with [] => None | _ => Some lex end)
           | _ => Return None
           end
       end).

Definition _load_external_lexicon (w : World) (path : option string) : result (option Lexicon) :=
  Return (try_except (load_body w path) None).

Definition import_module (w : World) : result Globals :=
  bind (_load_external_lexicon w None) (fun _EXTERNAL =>
    match _EXTERNAL with
    | Some (e :: ext) =>
        Return {| KEYWORD_LEXICON := e :: ext; DEFAULT_DOMAIN_LABELS := dict_keys (e :: ext) |}
    | _ => Return builtin_globals
    end).

Section Classify.
Variable g : Globals.

(** [candidate_labels if candidate_labels else DEFAULT_DOMAIN_LABELS], normalised. *)
Definition labels_of (candidate_labels : option (list string)) : list string :=
  map _normalize_label
    (match candidate_labels with
     | Some (l :: ls) => l :: ls
     | _ => DEFAULT_DOMAIN_LABELS g
     end).

(** [{lbl: _keyword_score(text, lexicon[lbl]) for lbl in labels}]. *)
Definition keyword_scores (labels : list string) (lexicon : Lexicon) (text : string)
  : result (Dict Z) :=
  fold_left
    (fun acc lbl =>
       bind acc (fun scores =>
       bind (dict_index lexicon lbl) (fun kws =>
       Return (dict_set scores lbl (_keyword_score text kws)))))
    labels (Return []).

Definition pick_label (labels : list string) (lexicon : Lexicon) (text : string)
  : result (string * PyFloat) :=
  bind (keyword_scores labels lexicon text)
    (fun scores =>
       bind (py_max scores) (fun best =>
         let (best_label, best_score) := best in
         if best_score =? 0 then Return ("Other", Binary64 (S754_zero false))
         else Return (best_label, OfInt best_score))).

Definition classify_domains_keyword (df : DataFrame) (candidate_labels : option (list string))
  : result DataFrame :=
  let labels := labels_of candidate_labels in
  let lexicon :=
    dict_comprehension (fun lbl => default [] (dict_get (KEYWORD_LEXICON g) lbl)) labels in
  bind (series_apply (pick_label labels lexicon) (map text_clean df)) (fun assignments =>
    Return (zip_with set_domain assignments df)).

Definition _get_zero_shot_pipeline : result (string -> list string -> list string * list spec_float) :=
  match pipeline with
  | Some zs => Return zs
  | None =>
      Raise (RuntimeError
               "Zero-shot classifier requires 'transformers' (and a backend like PyTorch)."
               OtherException)
  end.

Definition infer (zs : string -> list string -> list string * list spec_float)
    (labels : list string) (text : string) : result (string * PyFloat) :=
  if negb (truthy text) || negb (truthy (strip text))
  then Return ("Other", Binary64 (S754_zero false))
  else
    let res := zs text labels in
    match fst res, snd res with
    | l :: _, s :: _ => Return (l, Binary64 s)
    | _, _ => Raise IndexError
    end.

Definition classify_domains_zero_shot (df : DataFrame) (candidate_labels : option (list string))
  : result DataFrame :=
  let labels := labels_of candidate_labels in
  bind _get_zero_shot_pipeline (fun zs =>
  bind (series_apply (infer zs labels) (map text_clean df)) (fun assignments =>
    Return (zip_with set_domain assignments df))).

Definition analyze_domains (df : DataFrame) (candidate_labels : option (list string))
    (method : option string) : result DataFrame :=
  if decide (method_norm method = "zero-shot")
  then classify_domains_zero_shot df candidate_labels
  else classify_domains_keyword df candidate_labels.

(** The keyword lists and the hit counts [classify_domains_keyword] works with. *)
Definition keywords_of (lbl : string) : list string :=
  default [] (dict_get (KEYWORD_LEXICON g) lbl).

Definition lexicon_of (labels : list string) : Lexicon :=
  dict_comprehension keywords_of labels.

Definition score_of (text lbl : string) : Z := _keyword_score text (keywords_of lbl).

End Classify.
End Builtins.

(** [str.title] on ASCII text, to run the classifier on examples. *)
Definition is_upper (c : ascii) : bool := between 65 90 (code c).
Definition is_lower (c : ascii) : bool := between 97 122 (code c).
Definition upper_char (c : ascii) : ascii :=
  if is_lower c then ascii_of_N (code c - 32) else c.

Fixpoint title_from (prev_cased : bool) (s : string) : string :=
  match s with
  | EmptyString => EmptyString
  | String c s' =>
      String (if prev_cased then lower_char c else upper_char c)
             (title_from (is_upper c || is_lower c) s')
  end.

Definition ascii_title (s : string) : string := title_from false s.

(** Worlds and a frame to run the module on: no lexicon file at all, or a
    file with decoded content [v] in the working directory. *)
Definition no_file_world : World :=
  mkWorld (Return "/app") (fun _ => Absent).

Definition file_world (v : JSON) : World :=
  mkWorld (Return "/app")
          (fun p => if decide (p = "/app/domain_classification.json") then Parsed v else Absent).

Definition other_lexicon_file : JSON := JObject [("other", JArray [JString "misc"])].

Definition other_globals : Globals :=
  {| KEYWORD_LEXICON := [("Other", ["misc"])]; DEFAULT_DOMAIN_LABELS := ["Other"] |}.

Definition sample_frame : DataFrame :=
  [ mkRow "the game and the market" None None; mkRow "hello" None None ].

Definition no_str : JSON -> string := fun _ => "".

End Domain.


(* ===================================================================== *)
(** ** Classes of characters                                              *)
(* ===================================================================== *)

Module TextSpec.
Import PyStr.

(** Code points below 128. *)
Definition is_ascii (c : ascii) : bool := (code c <? 128)%N.

(** Any character but [#]. *)
Definition not_hash (c : ascii) : bool := negb (Ascii.eqb c "#").

End TextSpec.

(* ===================================================================== *)
(** ** sentiment.py: the frame                                            *)
(* ===================================================================== *)

Module SentimentFrame.
Import Sentiment.

(** The dictionary [SentimentIntensityAnalyzer.polarity_scores] returns. *)
Record Scores := mkScores {
  neg : float;
  neu : float;
  pos : float;
  compound : float
}.

(** A row of the frame: the cleaned text and, once scored, the sentiment. *)
Record Row := mkRow {
  text_clean : string;
  row_compound : option float;
  sentiment_label : option string
}.

Section Analyzer.
(** [sia.polarity_scores] of the VADER analyzer. *)
Variable polarity_scores : string -> Scores.

Definition analyze_sentiments (df : list Row) : list Row :=
  let scores := map (fun r => polarity_scores (text_clean r)) df in
  let compounds := map compound scores in
  zip_with (fun c r => {| text_clean := text_clean r;
                          row_compound := Some c;
                          sentiment_label := Some (score_to_label c) |})
           compounds df.

End Analyzer.

(** The label on the other side of zero. *)
Definition mirror_label (label : string) : string :=
  if decide (label = "Positive") then "Negative"
  else if decide (label = "Negative") then "Positive"
  else label.

End SentimentFrame.

(* ===================================================================== *)
(** ** twitter_client.py: observing the upstream                          *)
(* ===================================================================== *)

Module Upstream.
Import PyStr PyExn TwitterClient.

(** The upstream [api] with a journal of the calls made and their outcomes. *)
Definition logged {St} (api : St -> Request -> St * result Response)
    (s : St * list (Request * result Response)) (req : Request)
  : (St * list (Request * result Response)) * result Response :=
  let (st', r) := api (fst s) req in
  ((st', snd s ++ [(req, r)]), r).

(** The posts a call handed over. *)
Definition page_items (r : result Response) : list Tweet :=
  match r with
  | Return resp => default [] (data resp)
  | Raise _ => []
  end.

(** Each call carries the token of the response before it, [prev] for
    the first; nothing follows a call that raised. *)
Fixpoint chained (prev : option string) (log : list (Request * result Response)) : Prop :=
  match log with
  | [] => True
  | (req, r) :: log' =>
      req_pagination_token req = prev /\
      match r with
      | Return resp => chained (next_token resp) log'
      | Raise _ => log' = []
      end
  end.

(** What every request of one [get_user_tweets] call looks like; [bound]
    is the number of posts still wanted. *)
Definition well_formed (user_id : string) (exclude : list string)
    (start_time end_time : option Z) (bound : Z) (req : Request) : Prop :=
  1 <= req_max_results req <= 100 /\ req_max_results req <= bound /\
  req_id req = user_id /\
  req_exclude req = match exclude with [] => None | _ => Some exclude end /\
  req_start_time req = start_time /\ req_end_time req = end_time /\
  req_tweet_fields req = ["created_at"; "public_metrics"].

(** A page that is present holds at least one post. *)
Definition nonempty_pages {St} (api : St -> Request -> St * result Response) : Prop :=
  forall st req st' resp items,
    api st req = (st', Return resp) -> data resp = Some items -> items <> [].

(** A response without items: [data] is [None] or an empty list. *)
Definition no_items (resp : Response) : bool :=
  match data resp with
  | None | Some [] => true
  | Some (_ :: _) => false
  end.

(** An upstream whose every page is an empty list that still carries a token. *)
Definition empty_page_server (st : unit) (req : Request) : unit * result Response :=
  (st, Return {| data := Some []; meta := Some {[ "next_token" := "more" ]} |}).

End Upstream.

(* ===================================================================== *)
(** ** domain.py: what the lexicon holds                                  *)
(* ===================================================================== *)

Module DomainSpec.
Import PyStr PyExn Domain.

(** A keyword as the matcher needs it: not empty, trimmed, in lower case. *)
Definition keyword_ok (kw : string) : bool :=
  negb (is_empty kw) && String.eqb (lower kw) kw && String.eqb (strip kw) kw.

(** A lexicon entry has keywords, each in the form the matcher needs. *)
Definition entry_ok (kv : string * list string) : Prop :=
  snd kv <> [] /\ Forall (fun kw => keyword_ok kw = true) (snd kv).

(** The module-level names agree with each other. *)
Definition globals_ok (g : Globals) : Prop :=
  DEFAULT_DOMAIN_LABELS g = dict_keys (KEYWORD_LEXICON g) /\
  NoDup (DEFAULT_DOMAIN_LABELS g) /\
  DEFAULT_DOMAIN_LABELS g <> [] /\
  Forall entry_ok (KEYWORD_LEXICON g).

Section Entries.
Variable str_title : string -> string.
Variable py_str : JSON -> string.

(** The keywords an entry of the file contributes: those of a list value
    that are not blank, trimmed and in lower case. *)
Definition entry_keywords (keywords : JSON) : list string :=
  match keywords with
  | JArray ks =>
      map (fun k => lower (strip (str_of_json py_str k)))
          (filter (fun k => truthy (strip (str_of_json py_str k)) = true) ks)
  | _ => []
  end.

(** The keywords of the last entry of the file that is named [lbl] once
    normalised and contributes any. *)
Fixpoint last_keywords (lbl : string) (items : list (string * JSON)) : option (list string) :=
  match items with
  | [] => None
  | (raw_label, keywords) :: items' =>
      match last_keywords lbl items' with
      | Some kw => Some kw
      | None =>
          if decide (_normalize_label str_title raw_label = lbl)
          then match entry_keywords keywords with [] => None | kw => Some kw end
          else None
      end
  end.

End Entries.

(** A text without any character that is not whitespace. *)
Definition blank (text : string) : bool := is_empty (strip text).

(** The top answer of a zero-shot pipeline for a text. *)
Definition top_answer (zs : string -> list string -> list string * list spec_float)
    (labels : list string) (text : string) : option (string * PyFloat) :=
  match fst (zs text labels), snd (zs text labels) with
  | l :: _, s :: _ => Some (l, Binary64 s)
  | _, _ => None
  end.

(** One step of [title_from]: the character written and whether the
    character read was cased. *)
Definition title_char (prev_cased : bool) (c : ascii) : ascii :=
  if prev_cased then lower_char c else upper_char c.

Definition cased (c : ascii) : bool := is_upper c || is_lower c.


(** A pipeline that ranks the labels as given, to run the strategy on. *)
Definition sample_pipeline (text : string) (labels : list string)
  : list string * list spec_float :=
  (labels, map (fun _ => S754_zero false) labels).

End DomainSpec.

(* ===================================================================== *)
(** ** twitter_client.py: the constructor                                 *)
(* ===================================================================== *)

Module ClientInit.
Import PyStr PyExn.

(** [str.upper] on one character, as code points: the capitals of the
    micro sign and of y with diaeresis lie beyond U+00FF, and the sharp s
    becomes two letters. *)
Definition upper_char_codes (c : ascii) : list N :=
  let n := code c in
  if between 97 122 n || between 224 246 n || between 248 254 n then [n - 32]%N
  else if (n =? 181)%N then [924%N]
  else if (n =? 223)%N then [83%N; 83%N]
  else if (n =? 255)%N then [376%N]
  else [n].

Fixpoint upper_codes (s : string) : list N :=
  match s with
  | EmptyString => []
  | String c s' => upper_char_codes c ++ upper_codes s'
  end.

Fixpoint codes (s : string) : list N :=
  match s with
  | EmptyString => []
  | String c s' => code c :: codes s'
  end.

(** [token.strip().upper() in {"YOUR_BEARER_TOKEN_HERE", "YOUR_BEARER_TOKEN"}]. *)
Definition is_placeholder (token : string) : bool :=
  let u := upper_codes (strip token) in
  bool_decide (u = codes "YOUR_BEARER_TOKEN_HERE") || bool_decide (u = codes "YOUR_BEARER_TOKEN").

(** Where the token comes from: [os.getenv("X_BEARER_TOKEN")] and
    [st.secrets.get("X_BEARER_TOKEN")], which may raise. *)
Record Settings := mkSettings {
  env_token : option string;
  secrets_token : result (option string)
}.

(** The arguments [tweepy.Client] is built with. *)
Record ClientArgs := mkClientArgs {
  bearer_token : string;
  wait_on_rate_limit : bool
}.

Definition _get_secret (s : Settings) : option string :=
  try_except (secrets_token s) None.

(** [TwitterClient.__init__]. *)
Definition init (s : Settings) : result ClientArgs :=
  let bearer_token := or_else (env_token s) (_get_secret s) in
  let bearer_token :=
    if truthy_opt bearer_token && is_placeholder (default "" bearer_token)
    then None else bearer_token in
  match bearer_token with
  | Some token =>
      if truthy token
      then Return {| bearer_token := token; wait_on_rate_limit := false |}
      else Raise ValueError
  | None => Raise ValueError
  end.

End ClientInit.

(* ===================================================================== *)
(** ** app.py: fetching and preparing                                     *)
(* ===================================================================== *)

Module App.
Import PyStr PyExn TwitterClient.

(** The [public_metrics] attribute of a post. *)
Inductive MetricsAttr :=
| MetricsMissing                       (* [hasattr(t, "public_metrics")] is false *)
| MetricsNone                          (* the attribute is [None] *)
| MetricsDict (d : gmap string Z).

(** A record of the frame [fetch_and_prepare] builds. *)
Record Post := mkPost {
  id : string;
  created_at : option Z;
  text : string;
  like_count : option Z;
  retweet_count : option Z;
  reply_count : option Z;
  quote_count : option Z;
  text_clean : string
}.

Section Fetch.
Context {St : Type}.
Variable api_get_user : St -> string -> St * result (option User).
Variable api_get_users_tweets : St -> Request -> St * result Response.
(** The attributes of a post beyond its id and text. *)
Variable created_at_of : Tweet -> option Z.
Variable public_metrics_of : Tweet -> MetricsAttr.

(** [getattr(t, "public_metrics", {}).get(key, None) if hasattr(t,
    "public_metrics") else None]; [.get] on [None] raises. *)
Definition metric (t : Tweet) (key : string) : result (option Z) :=
  match public_metrics_of t with
  | MetricsMissing => Return None
  | MetricsNone => Raise OtherException
  | MetricsDict d => Return (d !! key)
  end.

(** One turn of [for t in tweets: records.append({...})], with the
    [text_clean] column that is added to the frame afterwards. *)
Definition record_of (t : Tweet) : result Post :=
  bind (metric t "like_count") (fun likes =>
  bind (metric t "retweet_count") (fun retweets =>
  bind (metric t "reply_count") (fun replies =>
  bind (metric t "quote_count") (fun quotes =>
  Return {| id := tweet_id t;
            created_at := created_at_of t;
            text := tweet_text t;
            like_count := likes;
            retweet_count := retweets;
            reply_count := replies;
            quote_count := quotes;
            text_clean := Utils.clean_text (Some (tweet_text t)) |})))).

Fixpoint records_of (tweets : list Tweet) : result (list Post) :=
  match tweets with
  | [] => Return []
  | t :: tweets' =>
      bind (record_of t) (fun p => bind (records_of tweets') (fun ps => Return (p :: ps)))
  end.

(** The body of [fetch_and_prepare], which runs when its cache has no
    entry for the arguments; [client_ok] says that the module-level client
    was built, [fuel] bounds the iterations of the pagination loop, and the
    result is [None] when the loop is still running at that bound. *)
Definition fetch_and_prepare (client_ok : bool) (now : Z) (fuel : nat) (st : St)
    (username : string) (max_results : Z) (exclude_replies exclude_retweets : bool)
    (start_date end_date : option Z) : option (St * result (list Post)) :=
  if negb client_ok then Some (st, Raise (RuntimeError "API client not available" OtherException))
  else
    let (st1, user) := get_user_by_username api_get_user now st username in
    match user with
    | Raise e => Some (st1, Raise e)
    | Return None => Some (st1, Return [])
    | Return (Some user) =>
        let run := get_user_tweets_run api_get_users_tweets fuel st1 (user_id user)
                     max_results exclude_replies exclude_retweets start_date end_date in
        match run_status run with
        | Running => None
        | Raised e => Some (run_state run, Raise e)
        | Returned =>
            match run_collected run with
            | [] => Some (run_state run, Return [])
            | tweets => Some (run_state run, records_of tweets)
            end
        end
    end.

End Fetch.

(** A user directory that knows one name, for any upstream state. *)
Definition sample_lookup {St} (st : St) (username : string) : St * result (option User) :=
  (st, Return (if decide (username = "alice") then Some (mkUser "42" "alice") else None)).

(** [" ".join(texts)]. *)
Fixpoint join_spaces (texts : list string) : string :=
  match texts with
  | [] => ""
  | [t] => t
  | t :: texts' => t +:+ " " +:+ join_spaces texts'
  end.

(** The text [generate_wordcloud_image] hands to [WordCloud.generate]. *)
Definition wordcloud_text (text : string) : string :=
  if negb (truthy (strip text)) then "neutral positive negative" else text.

(** The argument [render_charts] calls it with: the cleaned texts of the
    rows that are not neutral, joined, or a single space. *)
Definition cloud_argument (rows : list (string * string)) : string :=
  let texts := map fst (filter (fun r => snd r <> "Neutral") rows) in
  let joined := join_spaces texts in
  if truthy joined then joined else " ".

End App.

(* ===================================================================== *)
(** * Properties                                                          *)
(* ===================================================================== *)

(** ** Text cleaning *)

Module UtilsFacts.
Import PyStr Utils.

(** *** Characters *)

Ltac each_char c := destruct c as [[] [] [] [] [] [] [] []]; vm_compute; try reflexivity.

Lemma lower_char_idem c : lower_char (lower_char c) = lower_char c.
Proof. each_char c. Qed.

Lemma is_space_lower_char c : is_space (lower_char c) = is_space c.
Proof. each_char c. Qed.

Lemma lower_char_space c : is_space c = true -> lower_char c = c.
Proof. each_char c; discriminate. Qed.

(** *** [lower] and [strip] *)

Lemma lower_idem s : lower (lower s) = lower s.
Proof. induction s as [|c s IH]; cbn [lower]; [reflexivity|]. now rewrite lower_char_idem, IH. Qed.

Lemma is_empty_lower s : is_empty (lower s) = is_empty s.
Proof. now destruct s. Qed.

Lemma lstrip_lower s : lstrip (lower s) = lower (lstrip s).
Proof.
  induction s as [|c s IH]; cbn [lower lstrip]; [reflexivity|].
  rewrite is_space_lower_char. destruct (is_space c); [exact IH|reflexivity].
Qed.

Lemma rstrip_lower s : rstrip (lower s) = lower (rstrip s).
Proof.
  induction s as [|c s IH]; cbn [lower rstrip]; [reflexivity|].
  rewrite is_space_lower_char, IH, is_empty_lower.
  now destruct (is_space c && is_empty (rstrip s)).
Qed.

Lemma strip_lower s : strip (lower s) = lower (strip s).
Proof. unfold strip. now rewrite lstrip_lower, rstrip_lower. Qed.

Lemma rstrip_idem s : rstrip (rstrip s) = rstrip s.
Proof.
  induction s as [|c s IH]; cbn [rstrip]; [reflexivity|].
  destruct (is_space c && is_empty (rstrip s)) eqn:Hc; [reflexivity|].
  cbn [rstrip]. now rewrite IH, Hc.
Qed.

Lemma lstrip_head s : head_ok (lstrip s) = true.
Proof.
  induction s as [|c s IH]; cbn [lstrip]; [reflexivity|].
  destruct (is_space c) eqn:Hc; [exact IH|]. cbn [head_ok]. now rewrite Hc.
Qed.

Lemma rstrip_head s : head_ok s = true -> head_ok (rstrip s) = true.
Proof.
  destruct s as [|c s]; cbn [rstrip head_ok]; [reflexivity|].
  intros Hc%negb_true_iff. rewrite Hc. cbn [andb head_ok]. now rewrite Hc.
Qed.

Lemma lstrip_fixed s : head_ok s = true -> lstrip s = s.
Proof.
  destruct s as [|c s]; cbn [lstrip head_ok]; [reflexivity|].
  now intros ->%negb_true_iff.
Qed.

Lemma strip_idem s : strip (strip s) = strip s.
Proof.
  unfold strip.
  rewrite (lstrip_fixed (rstrip (lstrip s))) by apply rstrip_head, lstrip_head.
  apply rstrip_idem.
Qed.

(** *** Collapsed whitespace *)

Lemma single_spaced_weaken s : single_spaced true s = true -> single_spaced false s = true.
Proof.
  destruct s as [|c s]; cbn [single_spaced]; [reflexivity|].
  destruct (is_space c); [|tauto]. rewrite andb_false_r. discriminate.
Qed.

Lemma sub_multispace_single_spaced s : forall b,
  single_spaced b (sub_multispace b s) = true.
Proof.
  induction s as [|c s IH]; intros b; cbn [sub_multispace]; [reflexivity|].
  destruct (is_space c) eqn:Hc.
  - destruct b; [apply IH|]. cbn [single_spaced]. now rewrite IH.
  - cbn [single_spaced]. rewrite Hc. apply IH.
Qed.

Lemma single_spaced_fixed s : forall b,
  single_spaced b s = true -> sub_multispace b s = s.
Proof.
  induction s as [|c s IH]; intros b; cbn [single_spaced sub_multispace]; [reflexivity|].
  destruct (is_space c).
  - intros ((Hsp%Ascii.eqb_eq & Hb%negb_true_iff)%andb_true_iff & Hs)%andb_true_iff.
    subst. now rewrite (IH true Hs).
  - intros Hs. now rewrite (IH false Hs).
Qed.

Lemma single_spaced_lstrip s : forall b,
  single_spaced b s = true -> single_spaced false (lstrip s) = true.
Proof.
  induction s as [|c s IH]; intros b; cbn [lstrip]; [reflexivity|].
  destruct (is_space c) eqn:Hc.
  - cbn [single_spaced]. rewrite Hc. intros (_ & Hs)%andb_true_iff. now apply (IH true).
  - cbn [single_spaced]. now rewrite Hc.
Qed.

Lemma single_spaced_rstrip s : forall b,
  single_spaced b s = true -> single_spaced b (rstrip s) = true.
Proof.
  induction s as [|c s IH]; intros b; cbn [rstrip]; [reflexivity|].
  destruct (is_space c && is_empty (rstrip s)); [reflexivity|].
  cbn [single_spaced]. destruct (is_space c).
  - intros (-> & Hs)%andb_true_iff. now rewrite (IH true Hs).
  - apply IH.
Qed.

Lemma single_spaced_lower s : forall b,
  single_spaced b (lower s) = single_spaced b s.
Proof.
  induction s as [|c s IH]; intros b; cbn [lower single_spaced]; [reflexivity|].
  rewrite is_space_lower_char. destruct (is_space c) eqn:Hc.
  - now rewrite (lower_char_space c Hc), IH.
  - apply IH.
Qed.

(** *** Texts without a match *)

Lemma sub_url_fixed s : has_url s = false -> sub_url false s = s.
Proof.
  induction s as [|c s IH]; [reflexivity|].
  cbn [has_url sub_url]. intros (Hat & Hs)%orb_false_iff.
  now rewrite Hat, (IH Hs).
Qed.

Lemma sub_mention_fixed s : has_mention s = false -> sub_mention false s = s.
Proof.
  induction s as [|c s IH]; [reflexivity|].
  cbn [has_mention sub_mention andb]. intros (Hat & Hs)%orb_false_iff.
  now rewrite Hat, (IH Hs).
Qed.

Lemma sub_literal_fixed pat rep s : contains pat s = false -> sub_literal pat rep O s = s.
Proof.
  induction s as [|c s IH]; [reflexivity|].
  cbn [contains sub_literal]. intros (Hat & Hs)%orb_false_iff.
  now rewrite Hat, (IH Hs).
Qed.

Lemma sub_hashtag_fixed s : contains "#" s = false -> sub_hashtag s = s.
Proof.
  induction s as [|c s IH]; [reflexivity|].
  cbn [contains sub_hashtag starts_with]. intros (Hat & Hs)%orb_false_iff.
  rewrite andb_true_r, Ascii.eqb_sym in Hat. now rewrite Hat, (IH Hs).
Qed.

(** *** [clean_text] *)

(** The result of [clean_text] is in lower case, trimmed, and its only
    whitespace is single spaces. *)
Lemma clean_text_normal x :
  let y := clean_text x in
  lower y = y /\ strip y = y /\ sub_multispace false y = y.
Proof.
  unfold clean_text.
  set (t := sub_multispace false _).
  split; [apply lower_idem|]. split.
  - now rewrite strip_lower, strip_idem.
  - apply single_spaced_fixed. rewrite single_spaced_lower.
    unfold strip. apply single_spaced_rstrip, (single_spaced_lstrip t false).
    apply sub_multispace_single_spaced.
Qed.

Lemma text_or_empty y : match or_else (Some y) (Some "") with Some t => t | None => "" end = y.
Proof. now destruct y. Qed.

(** *** Every rewrite shortens the text *)

Local Open Scope nat_scope.

Lemma url_at_next c s : url_at (String c s) = true ->
  exists c' s', s = String c' s' /\ is_space c' = false.
Proof.
  destruct s as [|c' s']; [destruct c as [[] [] [] [] [] [] [] []]; discriminate|].
  intros H. exists c', s'. split; [reflexivity|].
  assert (Ht : Ascii.eqb "t" c' = true).
  { unfold url_at in H. cbn [starts_with] in H.
    destruct (Ascii.eqb "h" c); [|discriminate].
    destruct (Ascii.eqb "t" c'); [reflexivity|discriminate]. }
  apply Ascii.eqb_eq in Ht. now subst.
Qed.

Lemma sub_url_length s : forall b, String.length (sub_url b s) <= String.length s.
Proof.
  induction s as [|c s IH]; intros b; [reflexivity|].
  cbn [sub_url]. destruct b.
  - destruct (is_space c); cbn [String.length]; [specialize (IH false)|specialize (IH true)]; lia.
  - destruct (url_at (String c s)); cbn [String.length];
      [specialize (IH true)|specialize (IH false)]; lia.
Qed.

Lemma sub_url_shorter s : has_url s = true ->
  String.length (sub_url false s) < String.length s.
Proof.
  induction s as [|c s IH]; [discriminate|].
  cbn [has_url sub_url]. destruct (url_at (String c s)) eqn:Hat.
  - intros _. destruct (url_at_next c s Hat) as (c' & s' & -> & Hc').
    cbn [sub_url String.length]. rewrite Hc'.
    pose proof (sub_url_length s' true). lia.
  - cbn [orb String.length]. intros Hs. specialize (IH Hs). lia.
Qed.

Lemma sub_mention_length s : forall b, String.length (sub_mention b s) <= String.length s.
Proof.
  induction s as [|c s IH]; intros b; [reflexivity|].
  cbn [sub_mention]. destruct (b && is_word c).
  - cbn [String.length]. specialize (IH true). lia.
  - destruct (mention_at (String c s)); cbn [String.length];
      [specialize (IH true)|specialize (IH false)]; lia.
Qed.

Lemma sub_mention_shorter s : has_mention s = true ->
  String.length (sub_mention false s) < String.length s.
Proof.
  induction s as [|c s IH]; [discriminate|].
  cbn [has_mention sub_mention andb]. destruct (mention_at (String c s)) eqn:Hat.
  - intros _. unfold mention_at in Hat.
    destruct (Ascii.eqb_spec c "@") as [->|Hne].
    + destruct s as [|c' s']; [discriminate|]. cbn [word_head] in Hat.
      cbn [sub_mention String.length andb]. rewrite Hat.
      pose proof (sub_mention_length s' true). lia.
    + exfalso. destruct c as [[] [] [] [] [] [] [] []]; try discriminate. now apply Hne.
  - cbn [orb String.length]. intros Hs. specialize (IH Hs). lia.
Qed.

Lemma sub_hashtag_length s : String.length (sub_hashtag s) <= String.length s.
Proof.
  induction s as [|c s IH]; [reflexivity|].
  cbn [sub_hashtag]. destruct (Ascii.eqb c "#"); cbn [String.length]; lia.
Qed.

Lemma sub_hashtag_shorter s : contains "#" s = true ->
  String.length (sub_hashtag s) < String.length s.
Proof.
  induction s as [|c s IH]; [discriminate|].
  cbn [contains starts_with sub_hashtag]. rewrite andb_true_r, Ascii.eqb_sym.
  destruct (Ascii.eqb c "#"); cbn [orb String.length].
  - intros _. pose proof (sub_hashtag_length s). lia.
  - intros Hs. specialize (IH Hs). lia.
Qed.

Lemma starts_with_length pat s : starts_with pat s = true -> String.length pat <= String.length s.
Proof.
  revert s. induction pat as [|a pat IH]; intros s; [cbn; lia|].
  destruct s as [|b s]; [discriminate|].
  cbn [starts_with String.length]. intros (_ & H)%andb_true_iff. specialize (IH s H). lia.
Qed.

Lemma length_appended (a b : string) :
  String.length (a +:+ b) = String.length a + String.length b.
Proof. induction a as [|c a IH]; simpl; [reflexivity|]. now f_equal. Qed.

Lemma sub_literal_length pat rep s : String.length rep <= String.length pat ->
  forall k, k <= String.length s ->
            String.length (sub_literal pat rep k s) + k <= String.length s.
Proof.
  intros Hrep. induction s as [|c s IH]; intros k Hk; [cbn in *; lia|].
  cbn [sub_literal]. destruct k as [|k].
  - destruct (starts_with pat (String c s)) eqn:Hat.
    + apply starts_with_length in Hat. cbn [String.length] in *.
      rewrite length_appended.
      specialize (IH (Nat.pred (String.length pat))). lia.
    + cbn [String.length]. specialize (IH 0). lia.
  - cbn [String.length] in *. specialize (IH k). lia.
Qed.

Lemma sub_literal_shorter pat rep s : String.length rep < String.length pat ->
  contains pat s = true ->
  String.length (sub_literal pat rep O s) < String.length s.
Proof.
  intros Hrep. induction s as [|c s IH].
  - cbn [contains]. rewrite orb_false_r. intros H%starts_with_length. cbn in H. lia.
  - cbn [contains sub_literal]. destruct (starts_with pat (String c s)) eqn:Hat.
    + intros _. apply starts_with_length in Hat. cbn [String.length] in *.
      rewrite length_appended.
      pose proof (sub_literal_length pat rep s ltac:(lia) (Nat.pred (String.length pat))). lia.
    + cbn [orb String.length]. intros Hs. specialize (IH Hs). lia.
Qed.

Lemma sub_multispace_length s : forall b, String.length (sub_multispace b s) <= String.length s.
Proof.
  induction s as [|c s IH]; intros b; [reflexivity|].
  cbn [sub_multispace]. destruct (is_space c); [destruct b|]; cbn [String.length];
    [specialize (IH true)|specialize (IH true)|specialize (IH false)]; lia.
Qed.

Lemma lower_length s : String.length (lower s) = String.length s.
Proof. induction s as [|c s IH]; cbn [lower String.length]; [reflexivity|]. now rewrite IH. Qed.

Lemma strip_length s : String.length (strip s) <= String.length s.
Proof.
  assert (Hl : forall t, String.length (lstrip t) <= String.length t).
  { induction t as [|c t IH]; [reflexivity|]. cbn [lstrip].
    destruct (is_space c); cbn [String.length] in *; lia. }
  assert (Hr : forall t, String.length (rstrip t) <= String.length t).
  { induction t as [|c t IH]; [reflexivity|]. cbn [rstrip].
    destruct (is_space c && is_empty (rstrip t)); cbn [String.length] in *; lia. }
  unfold strip. specialize (Hl s). specialize (Hr (lstrip s)). lia.
Qed.

(** A text that still holds a match comes out of [clean_text] shorter. *)
Lemma clean_text_shorter y : pattern_free y = false ->
  String.length (clean_text (Some y)) < String.length y.
Proof.
  intros Hpf. unfold clean_text. rewrite text_or_empty, lower_length.
  set (y1 := sub_url false y).
  set (y2 := sub_mention false y1).
  set (y3 := sub_hashtag y2).
  set (y4 := sub_literal "&amp;" "&" O y3).
  set (y5 := sub_literal "&lt;" "<" O y4).
  set (y6 := sub_literal "&gt;" ">" O y5).
  pose proof (strip_length (sub_multispace false y6)) as H8.
  pose proof (sub_multispace_length y6 false) as H7.
  pose proof (sub_literal_length "&gt;" ">" y5 ltac:(cbn; lia) 0 ltac:(lia)) as H6.
  pose proof (sub_literal_length "&lt;" "<" y4 ltac:(cbn; lia) 0 ltac:(lia)) as H5.
  pose proof (sub_literal_length "&amp;" "&" y3 ltac:(cbn; lia) 0 ltac:(lia)) as H4.
  pose proof (sub_hashtag_length y2) as H3.
  pose proof (sub_mention_length y1 false) as H2.
  pose proof (sub_url_length y false) as H1.
  fold y1 in H1. fold y2 in H2. fold y3 in H3. fold y4 in H4. fold y5 in H5. fold y6 in H6.
  unfold pattern_free in Hpf.
  destruct (has_url y) eqn:Eurl.
  { pose proof (sub_url_shorter y Eurl). fold y1 in H. lia. }
  assert (E1 : y1 = y) by (now apply sub_url_fixed).
  destruct (has_mention y) eqn:Emen.
  { rewrite <- E1 in Emen. pose proof (sub_mention_shorter y1 Emen). fold y2 in H. lia. }
  assert (E2 : y2 = y) by (unfold y2; rewrite E1; now apply sub_mention_fixed).
  destruct (contains "#" y) eqn:Ehash.
  { rewrite <- E2 in Ehash. pose proof (sub_hashtag_shorter y2 Ehash). fold y3 in H. lia. }
  assert (E3 : y3 = y) by (unfold y3; rewrite E2; now apply sub_hashtag_fixed).
  destruct (contains "&amp;" y) eqn:Eamp.
  { rewrite <- E3 in Eamp.
    pose proof (sub_literal_shorter "&amp;" "&" y3 ltac:(cbn; lia) Eamp). fold y4 in H. lia. }
  assert (E4 : y4 = y) by (unfold y4; rewrite E3; now apply sub_literal_fixed).
  destruct (contains "&lt;" y) eqn:Elt.
  { rewrite <- E4 in Elt.
    pose proof (sub_literal_shorter "&lt;" "<" y4 ltac:(cbn; lia) Elt). fold y5 in H. lia. }
  assert (E5 : y5 = y) by (unfold y5; rewrite E4; now apply sub_literal_fixed).
  destruct (contains "&gt;" y) eqn:Egt.
  { rewrite <- E5 in Egt.
    pose proof (sub_literal_shorter "&gt;" ">" y5 ltac:(cbn; lia) Egt). fold y6 in H. lia. }
  discriminate Hpf.
Qed.

Local Close Scope nat_scope.

(** A text in normal form without a match is left alone. *)
Lemma clean_text_fixed y :
  lower y = y -> strip y = y -> sub_multispace false y = y ->
  pattern_free y = true -> clean_text (Some y) = y.
Proof.
  intros Hlow Hstrip Hms. unfold pattern_free.
  intros (((((Hurl%negb_true_iff & Hmen%negb_true_iff)%andb_true_iff
             & Hhash%negb_true_iff)%andb_true_iff
            & Hamp%negb_true_iff)%andb_true_iff
           & Hlt%negb_true_iff)%andb_true_iff
          & Hgt%negb_true_iff)%andb_true_iff.
  unfold clean_text. rewrite text_or_empty.
  rewrite (sub_url_fixed y Hurl), (sub_mention_fixed y Hmen), (sub_hashtag_fixed y Hhash).
  rewrite (sub_literal_fixed _ _ y Hamp), (sub_literal_fixed _ _ y Hlt),
    (sub_literal_fixed _ _ y Hgt).
  now rewrite Hms, Hstrip, Hlow.
Qed.

(** C4, as amended: a second pass of [clean_text] changes nothing exactly
    when the first result holds no match of a pattern the function
    rewrites: no URL, no mention, no [#] and none of [&amp;], [&lt;],
    [&gt;]. *)
Theorem clean_text_idempotent_iff_pattern_free (x : option string) :
  clean_text (Some (clean_text x)) = clean_text x <-> pattern_free (clean_text x) = true.
Proof.
  split.
  - intros Hidem. destruct (pattern_free (clean_text x)) eqn:Hpf; [reflexivity|].
    pose proof (clean_text_shorter _ Hpf) as Hlen. rewrite Hidem in Hlen. lia.
  - destruct (clean_text_normal x) as (Hlow & Hstrip & Hms).
    now apply clean_text_fixed.
Qed.

Lemma clean_text_idempotent_iff_pattern_free_witness :
  clean_text (Some "Check https://example.com/x @bob #cool &amp; done") = "check cool & done" /\
  pattern_free "check cool & done" = true /\
  clean_text (Some "check cool & done") = "check cool & done".
Proof.
  split; [reflexivity|]. split; [reflexivity|].
  apply (proj2 (clean_text_idempotent_iff_pattern_free
                  (Some "Check https://example.com/x @bob #cool &amp; done"))).
  reflexivity.
Defined.

(** An escaped ampersand in front of [amp;] survives one pass as [&amp;],
    which the next pass unescapes. *)
Lemma clean_text_not_idempotent_counterexample :
  clean_text (Some "&amp;amp;") = "&amp;" /\
  clean_text (Some (clean_text (Some "&amp;amp;"))) = "&" /\
  clean_text (Some (clean_text (Some "&amp;amp;"))) <> clean_text (Some "&amp;amp;").
Proof. split; [reflexivity|]. split; [reflexivity|]. discriminate. Qed.

End UtilsFacts.

(** ** Sentiment labels *)

Module SentimentFacts.
Import Sentiment.

(** No float is at once [>= 0.05] and [<= -0.05]. *)
Lemma thresholds_exclusive (c : float) :
  float_ge c f_0_05 = true -> float_le c f_neg_0_05 = false.
Proof.
  destruct c as [[] | [] | | [] m e]; intros H;
    solve [ reflexivity | vm_compute in H; discriminate H ].
Qed.

(** The literals are binary64 values, each within half a unit in the last
    place of the decimal it is written as. *)
Lemma literals_valid :
  valid_binary 53 1024 f_0_05 = true /\ valid_binary 53 1024 f_neg_0_05 = true /\
  valid_binary 53 1024 f_0_049 = true.
Proof. repeat split; vm_compute; reflexivity. Qed.

Lemma literals_nearest :
  f_0_05 = S754_finite false 7205759403792794 (-57) /\
  2 * Z.abs (20 * 7205759403792794 - 2 ^ 57) < 20 /\
  f_0_049 = S754_finite false 7061644215716938 (-57) /\
  2 * Z.abs (1000 * 7061644215716938 - 49 * 2 ^ 57) < 1000.
Proof. repeat split; reflexivity. Qed.

(** C1: for every float [compound], [score_to_label] gives ["Positive"]
    exactly when [compound >= 0.05], ["Negative"] exactly when
    [compound <= -0.05] and ["Neutral"] exactly when neither holds; the
    result is always one of these three labels, and the thresholds are
    inclusive: 0.05 is Positive, -0.05 is Negative, 0.049 is Neutral. *)
Theorem score_to_label_thresholds (compound : float) :
  (score_to_label compound = "Positive" <-> float_ge compound f_0_05 = true) /\
  (score_to_label compound = "Negative" <-> float_le compound f_neg_0_05 = true) /\
  (score_to_label compound = "Neutral" <->
     float_ge compound f_0_05 = false /\ float_le compound f_neg_0_05 = false) /\
  score_to_label compound ∈ ["Positive"; "Negative"; "Neutral"] /\
  score_to_label f_0_05 = "Positive" /\
  score_to_label f_neg_0_05 = "Negative" /\
  score_to_label f_0_049 = "Neutral".
Proof.
  pose proof (thresholds_exclusive compound) as Hex.
  unfold score_to_label.
  destruct (float_ge compound f_0_05) eqn:Hge.
  - rewrite (Hex eq_refl).
    repeat split; try discriminate; try reflexivity; try (intros [? ?]; discriminate).
    apply list_elem_of_In; simpl; auto.
  - destruct (float_le compound f_neg_0_05) eqn:Hle.
    + repeat split; try discriminate; try reflexivity; try (intros [? ?]; discriminate).
      apply list_elem_of_In; simpl; auto.
    + repeat split; try discriminate; try reflexivity.
      apply list_elem_of_In; simpl; auto.
Qed.

End SentimentFacts.

(** ** Fetching *)

Module TwitterClientFacts.
Import PyStr PyExn TwitterClient.

Section Loop.
Context {St : Type}.
Variable api : St -> Request -> St * result Response.
Variables (user_id : string) (exclude : list string) (start_time end_time : option Z).

Lemma fetch_loop_bound (Hapi : respects_page_size api) fuel :
  forall st collected token remaining n,
    0 <= remaining ->
    Z.of_nat (length (run_collected (fetch_loop api user_id exclude start_time end_time
                                        fuel st collected token remaining n)))
    <= Z.of_nat (length collected) + remaining.
Proof.
  induction fuel as [|fuel IH]; intros st collected token remaining n Hrem; simpl.
  - destruct (remaining >? 0); simpl; lia.
  - destruct (remaining >? 0) eqn:Hpos; simpl; [|lia].
    destruct (api st _) as [st' [resp|e]] eqn:Hcall; simpl; [|lia].
    destruct (data resp) as [items|] eqn:Hdata; simpl; [|lia].
    pose proof (Hapi _ _ _ _ _ Hcall Hdata) as Hlen. simpl in Hlen.
    destruct (negb _); simpl.
    + rewrite length_app. lia.
    + etransitivity; [apply IH; lia|]. rewrite length_app. lia.
Qed.

Lemma fetch_loop_stops fuel st collected token remaining n st' resp :
  remaining > 0 ->
  api st ({| req_id := user_id;
            req_max_results := Z.min 100 remaining;
            req_exclude := match exclude with [] => None | _ => Some exclude end;
            req_start_time := start_time;
            req_end_time := end_time;
            req_tweet_fields := ["created_at"; "public_metrics"];
            req_pagination_token := token |}) = (st', Return resp) ->
  data resp = None \/ truthy_opt (next_token resp) = false ->
  let r := fetch_loop api user_id exclude start_time end_time
             (S fuel) st collected token remaining n in
  run_status r = Returned /\ run_requests r = S n /\ run_state r = st' /\
  run_collected r = collected ++ default [] (data resp).
Proof.
  intros Hpos Hcall Hend. simpl.
  assert ((remaining >? 0) = true) as -> by lia.
  rewrite Hcall.
  destruct (data resp) as [items|] eqn:Hdata; simpl.
  - destruct Hend as [|Htok]; [discriminate|]. rewrite Htok. simpl. auto.
  - rewrite app_nil_r. auto.
Qed.

End Loop.

Section Script.
Variables (user_id : string) (exclude : list string) (start_time end_time : option Z).
Lemma script_requests_bound fuel :
  forall script collected token remaining n,
    (run_requests (fetch_loop script_server user_id exclude start_time end_time
                    fuel script collected token remaining n) <= n + S (length script))%nat.
Proof.
  induction fuel as [|fuel IH]; intros script collected token remaining n; simpl.
  - destruct (remaining >? 0); simpl; lia.
  - destruct (remaining >? 0); simpl; [|lia].
    destruct script as [|[resp|e] script]; simpl; try lia.
    destruct (data resp); simpl; [|lia].
    destruct (negb _); simpl; [lia|].
    etransitivity; [apply IH|]. lia.
Qed.

Lemma script_terminates fuel :
  forall script collected token remaining n,
    (length script < fuel)%nat ->
    run_status (fetch_loop script_server user_id exclude start_time end_time
                    fuel script collected token remaining n) <> Running.
Proof.
  induction fuel as [|fuel IH]; intros script collected token remaining n Hlen; simpl.
  - lia.
  - destruct (remaining >? 0); simpl; [|discriminate].
    destruct script as [|[resp|e] script]; simpl; try discriminate.
    destruct (data resp); simpl; [|discriminate].
    destruct (negb _); simpl; [discriminate|].
    apply IH. simpl in Hlen. lia.
Qed.
End Script.

Lemma feed_server_respects : respects_page_size feed_server.
Proof.
  intros feed req rest resp items Hcall Hdata.
  unfold feed_server in Hcall. injection Hcall as _ <-. simpl in Hdata.
  destruct (take _ feed) as [|t page] eqn:Htake; [discriminate|].
  injection Hdata as <-. rewrite <- Htake, length_take.
  destruct (req_max_results req); simpl in *; try discriminate; lia.
Qed.

(** Whatever the step budget, the run has collected at most
    [max(1, max_results)] posts from an upstream that honours the page size. *)
Lemma run_collected_bound {St} (api : St -> Request -> St * result Response)
    (Hapi : respects_page_size api) fuel st user_id max_results
    exclude_replies exclude_retweets start_time end_time :
  Z.of_nat (length (run_collected
    (get_user_tweets_run api fuel st user_id max_results
       exclude_replies exclude_retweets start_time end_time)))
  <= Z.max 1 max_results.
Proof.
  unfold get_user_tweets_run.
  etransitivity; [apply fetch_loop_bound; [exact Hapi | lia]|].
  simpl. lia.
Qed.

(** C3, as amended: against an upstream that returns at most the requested
    page size per call, [get_user_tweets] returns at most
    [max(1, max_results)] posts, hence at most [max_results] of them
    whenever [max_results >= 1]; the bound holds for what has been
    collected at any point of the loop. *)
Theorem get_user_tweets_at_most_limit {St}
    (api : St -> Request -> St * result Response)
    (Hapi : respects_page_size api) fuel st user_id max_results
    exclude_replies exclude_retweets start_time end_time :
  let r := get_user_tweets_run api fuel st user_id max_results
             exclude_replies exclude_retweets start_time end_time in
  Z.of_nat (length (run_collected r)) <= Z.max 1 max_results /\
  (1 <= max_results -> Z.of_nat (length (run_collected r)) <= max_results) /\
  (forall tweets,
     get_user_tweets api fuel st user_id max_results
       exclude_replies exclude_retweets start_time end_time = Some (Return tweets) ->
     Z.of_nat (length tweets) <= Z.max 1 max_results).
Proof.
  intros r.
  pose proof (run_collected_bound api Hapi fuel st user_id max_results
                exclude_replies exclude_retweets start_time end_time) as Hb.
  fold r in Hb. split; [exact Hb|]. split; [lia|].
  intros tweets. unfold get_user_tweets. fold r.
  destruct (run_status r); intros Heq; try discriminate.
  injection Heq as <-. exact Hb.
Qed.

Lemma get_user_tweets_at_most_limit_witness :
  respects_page_size feed_server /\
  Z.of_nat (length (run_collected
    (get_user_tweets_run feed_server 5 sample_feed "42" 2 true true None None))) <= 2.
Proof.
  split; [exact feed_server_respects|].
  apply (proj1 (proj2 (get_user_tweets_at_most_limit feed_server feed_server_respects
                         5%nat sample_feed "42" 2 true true None None))).
  lia.
Defined.

(** With [max_results = 0] the loop still asks for one post and returns it. *)
Lemma get_user_tweets_limit_zero_counterexample :
  ~ (forall (St : Type) (api : St -> Request -> St * result Response),
       respects_page_size api ->
       forall fuel st user_id max_results er ert start_time end_time tweets,
         get_user_tweets api fuel st user_id max_results er ert start_time end_time
           = Some (Return tweets) ->
         Z.of_nat (length tweets) <= max_results).
Proof.
  intros H.
  specialize (H _ feed_server feed_server_respects 3%nat sample_feed "42" 0
                true true None None [mkTweet "1" "first"] eq_refl).
  simpl in H. lia.
Qed.

Lemma fetch_loop_empty_page {St} (api : St -> Request -> St * result Response)
    user_id exclude start_time end_time fuel st collected token remaining n st' resp :
  remaining > 0 ->
  api st ({| req_id := user_id;
            req_max_results := Z.min 100 remaining;
            req_exclude := match exclude with [] => None | _ => Some exclude end;
            req_start_time := start_time;
            req_end_time := end_time;
            req_tweet_fields := ["created_at"; "public_metrics"];
            req_pagination_token := token |}) = (st', Return resp) ->
  data resp = Some [] -> truthy_opt (next_token resp) = true ->
  fetch_loop api user_id exclude start_time end_time (S fuel) st collected token remaining n
  = fetch_loop api user_id exclude start_time end_time fuel st' collected
      (next_token resp) remaining (S n).
Proof.
  intros Hpos Hcall Hdata Htok. cbn [fetch_loop].
  assert ((remaining >? 0) = true) as -> by lia.
  rewrite Hcall, Hdata, Htok. cbn [negb length].
  now rewrite app_nil_r, Z.sub_0_r.
Qed.

Lemma empty_page_token :
  next_token {| data := Some []; meta := Some {[ "next_token" := "more" ]} |} = Some "more".
Proof.
  unfold next_token. cbn [meta].
  destruct (decide (_ = ∅)) as [Hempty|_];
    [exfalso; exact (map_non_empty_singleton _ _ Hempty)|].
  now rewrite lookup_singleton_eq.
Qed.

(** Empty pages that carry a token keep the loop going whatever the step budget. *)
Lemma empty_pages_never_end user_id exclude start_time end_time fuel :
  forall collected token remaining n,
    remaining > 0 ->
    run_status (fetch_loop Upstream.empty_page_server user_id exclude start_time end_time
                  fuel tt collected token remaining n) = Running.
Proof.
  induction fuel as [|fuel IH]; intros collected token remaining n Hpos.
  - cbn [fetch_loop]. now assert ((remaining >? 0) = true) as -> by lia.
  - rewrite (fetch_loop_empty_page Upstream.empty_page_server user_id exclude start_time
               end_time fuel tt collected token remaining n tt
               {| data := Some []; meta := Some {[ "next_token" := "more" ]} |}).
    + now apply IH.
    + exact Hpos.
    + reflexivity.
    + reflexivity.
    + now rewrite empty_page_token.
Qed.

(** C5, as amended: the pagination loop returns right after the first
    response that carries no continuation token or no data
    ([resp.data is None]), even with [remaining > 0]. Against a finite
    sequence of responses it sends at most one request more than there are
    responses and ends within that many iterations. A response whose data
    is an empty list and which carries a token does not end the loop: the
    next request goes out with the same [remaining] and the same posts
    collected. *)
Theorem pagination_terminates :
  (forall (St : Type) (api : St -> Request -> St * result Response)
          user_id exclude start_time end_time fuel st collected token remaining n st' resp,
      remaining > 0 ->
      api st ({| req_id := user_id;
                req_max_results := Z.min 100 remaining;
                req_exclude := match exclude with [] => None | _ => Some exclude end;
                req_start_time := start_time;
                req_end_time := end_time;
                req_tweet_fields := ["created_at"; "public_metrics"];
                req_pagination_token := token |}) = (st', Return resp) ->
      data resp = None \/ truthy_opt (next_token resp) = false ->
      let r := fetch_loop api user_id exclude start_time end_time
                 (S fuel) st collected token remaining n in
      run_status r = Returned /\ run_requests r = S n /\
      run_collected r = collected ++ default [] (data resp)) /\
  (forall (script : list (result Response)) user_id max_results er ert start_time end_time fuel,
      (run_requests (get_user_tweets_run script_server fuel script user_id max_results
                       er ert start_time end_time) <= S (length script))%nat /\
      ((length script < fuel)%nat ->
       is_Some (get_user_tweets script_server fuel script user_id max_results
                  er ert start_time end_time))) /\
  (forall (St : Type) (api : St -> Request -> St * result Response)
          user_id exclude start_time end_time fuel st collected token remaining n st' resp,
      remaining > 0 ->
      api st ({| req_id := user_id;
                req_max_results := Z.min 100 remaining;
                req_exclude := match exclude with [] => None | _ => Some exclude end;
                req_start_time := start_time;
                req_end_time := end_time;
                req_tweet_fields := ["created_at"; "public_metrics"];
                req_pagination_token := token |}) = (st', Return resp) ->
      data resp = Some [] -> truthy_opt (next_token resp) = true ->
      fetch_loop api user_id exclude start_time end_time (S fuel) st collected token remaining n
      = fetch_loop api user_id exclude start_time end_time fuel st' collected
          (next_token resp) remaining (S n)).
Proof.
  split; [|split].
  - intros St api user_id exclude start_time end_time fuel st collected token
      remaining n st' resp Hpos Hcall Hend r.
    destruct (fetch_loop_stops api user_id exclude start_time end_time
                fuel st collected token remaining n st' resp Hpos Hcall Hend)
      as (H1 & H2 & _ & H4).
    auto.
  - intros script user_id max_results er ert start_time end_time fuel. split.
    + unfold get_user_tweets_run.
      etransitivity; [apply script_requests_bound|]. lia.
    + intros Hlen. unfold get_user_tweets, get_user_tweets_run.
      pose proof (script_terminates user_id (exclude_list er ert) start_time end_time
                    fuel script [] None (Z.max 1 max_results) O Hlen) as Hrun.
      destruct (run_status _); [eexists; reflexivity | eexists; reflexivity | congruence].
  - intros St api. apply fetch_loop_empty_page.
Qed.

(** A response without items does not always end the loop: a page that is
    an empty list is not [None], so with a token on it the loop asks again,
    and an upstream that keeps answering so keeps it running for ever. *)
Lemma pagination_empty_pages_counterexample :
  ~ (forall (St : Type) (api : St -> Request -> St * result Response)
            user_id exclude start_time end_time st collected token remaining n st' resp,
       remaining > 0 ->
       api st ({| req_id := user_id;
                 req_max_results := Z.min 100 remaining;
                 req_exclude := match exclude with [] => None | _ => Some exclude end;
                 req_start_time := start_time;
                 req_end_time := end_time;
                 req_tweet_fields := ["created_at"; "public_metrics"];
                 req_pagination_token := token |}) = (st', Return resp) ->
       Upstream.no_items resp = true \/ truthy_opt (next_token resp) = false ->
       exists fuel,
         run_status (fetch_loop api user_id exclude start_time end_time
                       fuel st collected token remaining n) <> Running).
Proof.
  intros H.
  destruct (H unit Upstream.empty_page_server "42" ["replies"; "retweets"] None None
              tt [] None 10 O tt
              {| data := Some []; meta := Some {[ "next_token" := "more" ]} |}
              ltac:(lia) eq_refl (or_introl eq_refl)) as [fuel Hrun].
  apply Hrun, empty_pages_never_end. lia.
Qed.

(** A non-empty page without a token ends a fetch of up to ten posts. *)
Lemma pagination_terminates_witness :
  let page := {| data := Some [mkTweet "1" "first"]; meta := None |} in
  let r := fetch_loop script_server "42" ["replies"; "retweets"] None None
             1 [Return page] [] None 10 0 in
  10 > 0 /\ truthy_opt (next_token page) = false /\
  run_status r = Returned /\ run_requests r = 1%nat /\
  run_collected r = [mkTweet "1" "first"].
Proof.
  intros page r. split; [lia|]. split; [reflexivity|].
  apply (proj1 pagination_terminates _ script_server "42" ["replies"; "retweets"] None None
           0%nat [Return page] [] None 10 0%nat [] page).
  - lia.
  - reflexivity.
  - right. reflexivity.
Defined.

(** [get_user_by_username] turns Tweepy's [TooManyRequests] into a
    [RateLimitError] that carries the hint read from the response. *)
Lemma get_user_by_username_rate_limit {St}
    (api_get_user : St -> string -> St * result (option User)) now st st' username response :
  api_get_user st username = (st', Raise (TooManyRequests response)) ->
  get_user_by_username api_get_user now st username
  = (st', Raise (RateLimitError (_retry_after_from_response now (TooManyRequests response)))).
Proof. intros H. unfold get_user_by_username. rewrite H. reflexivity. Qed.

(** What the first call of [get_user_tweets] raises reaches the caller unchanged. *)
Lemma get_user_tweets_raises {St} (api : St -> Request -> St * result Response)
    fuel st st' user_id max_results er ert start_time end_time e :
  api st ({| req_id := user_id;
            req_max_results := Z.min 100 (Z.max 1 max_results);
            req_exclude := match exclude_list er ert with [] => None | l => Some l end;
            req_start_time := start_time;
            req_end_time := end_time;
            req_tweet_fields := ["created_at"; "public_metrics"];
            req_pagination_token := None |}) = (st', Raise e) ->
  get_user_tweets api (S fuel) st user_id max_results er ert start_time end_time
  = Some (Raise e).
Proof.
  intros H. unfold get_user_tweets, get_user_tweets_run. simpl.
  assert ((Z.max 1 max_results >? 0) = true) as -> by lia.
  destruct (exclude_list er ert) eqn:Hex; rewrite H; reflexivity.
Qed.

(** C2: the upstream answers "too many requests" with a 429 response.
    [get_user_by_username] turns it into a [RateLimitError]; in
    [get_user_tweets] no handler surrounds the call, so the caller receives
    Tweepy's own [TooManyRequests], which is no [RateLimitError]. *)
Theorem get_user_tweets_rate_limit_unwrapped :
  let e := TooManyRequests (Some (requests_response 429 {[ "x-rate-limit-reset" := "145" ]})) in
  get_user_tweets script_server 1 [Raise e] "42" 10 true true None None = Some (Raise e) /\
  (forall hint, e <> RateLimitError hint) /\
  snd (get_user_by_username (fun (st : unit) (_ : string) => (st, Raise e)) 100 tt "bob")
  = Raise (RateLimitError (_retry_after_from_response 100 e)).
Proof.
  intros e. split; [reflexivity|]. split; [discriminate|reflexivity].
Qed.

(** On a response object that is true and has a [headers] dictionary the
    hint follows the priority order: the [retry-after] value when it is
    numeric, else the distance to the reset epoch, floored at zero, when
    that header is numeric, else nothing. A digit string [int] rejects
    gives no hint either way. *)
Lemma retry_after_priority now (h : gmap string string) :
  let e := TooManyRequests (Some (mkHttpResponse true (HeadersDict h))) in
  let retry_after := or_else (h !! "retry-after") (h !! "Retry-After") in
  let reset_epoch := or_else (h !! "x-rate-limit-reset") (h !! "X-Rate-Limit-Reset") in
  _retry_after_from_response now e =
    if numeric retry_after then int_of_digits (str_of retry_after)
    else if numeric reset_epoch
         then (fun n => Z.max 0 (n - now)) <$> int_of_digits (str_of reset_epoch)
         else None.
Proof.
  intros e retry_after reset_epoch.
  unfold _retry_after_from_response, retry_after_body, e, response_of,
    has_headers, headers_or_empty.
  cbn [resp_truthy resp_headers negb orb].
  fold retry_after reset_epoch.
  destruct (numeric retry_after).
  - unfold py_int. destruct (int_of_digits _); reflexivity.
  - destruct (numeric reset_epoch); [|reflexivity].
    unfold py_int. destruct (int_of_digits _); reflexivity.
Qed.

Lemma retry_after_examples :
  let hint h := _retry_after_from_response 1000
                  (TooManyRequests (Some (mkHttpResponse true (HeadersDict h)))) in
  hint {[ "retry-after" := "30" ]} = Some 30 /\
  hint {[ "x-rate-limit-reset" := "1045" ]} = Some 45 /\
  hint {[ "x-rate-limit-reset" := "900" ]} = Some 0 /\
  hint {[ "retry-after" := "30"; "x-rate-limit-reset" := "1045" ]} = Some 30 /\
  hint ∅ = None.
Proof. vm_compute. repeat split; reflexivity. Qed.

(** C6: the response of a "too many requests" error is a
    [requests.Response] with status 429, which is false as a truth value;
    [if not resp] then returns [None] before any header is read, so a
    [retry-after: 30] header gives no hint. *)
Theorem retry_after_lost_on_429 (now : Z) (h : gmap string string) :
  _retry_after_from_response now (TooManyRequests (Some (requests_response 429 h))) = None /\
  _retry_after_from_response now
    (TooManyRequests (Some (requests_response 429 {[ "retry-after" := "30" ]}))) = None.
Proof. split; reflexivity. Qed.

End TwitterClientFacts.

(** ** Domains *)

Module DomainFacts.
Import PyStr PyExn Domain.

(** *** Ordered dictionaries *)

Section DictFacts.
Context {V : Type}.

Lemma dict_get_set (d : Dict V) k v k' :
  dict_get (dict_set d k v) k' = if decide (k = k') then Some v else dict_get d k'.
Proof.
  induction d as [|[k0 v0] d IH]; cbn [dict_set dict_get].
  - destruct (decide (k = k')); reflexivity.
  - destruct (decide (k0 = k)) as [->|H1]; cbn [dict_get].
    + destruct (decide (k = k')); reflexivity.
    + rewrite IH.
      destruct (decide (k0 = k')), (decide (k = k')); try reflexivity; congruence.
Qed.

Lemma dict_get_fold (f : string -> V) ks : forall d k,
  dict_get (fold_left (fun d k => dict_set d k (f k)) ks d) k
  = if decide (k ∈ ks) then Some (f k) else dict_get d k.
Proof.
  induction ks as [|k0 ks IH]; intros d k; cbn [fold_left].
  - destruct (decide (k ∈ [])) as [H|H]; [inversion H|reflexivity].
  - rewrite IH, dict_get_set.
    destruct (decide (k ∈ ks)) as [H1|H1], (decide (k ∈ k0 :: ks)) as [H2|H2];
      try reflexivity.
    + exfalso. apply H2. now constructor.
    + destruct (decide (k0 = k)) as [->|H3]; [reflexivity|].
      rewrite elem_of_cons in H2. destruct H2; congruence.
    + destruct (decide (k0 = k)) as [->|H3]; [|reflexivity].
      exfalso. apply H2. constructor.
Qed.

Lemma dict_set_fresh (d : Dict V) k v :
  k ∉ dict_keys d -> dict_set d k v = d ++ [(k, v)].
Proof.
  induction d as [|[k0 v0] d IH]; cbn [dict_set dict_keys map fst]; intros Hk;
    [reflexivity|].
  rewrite not_elem_of_cons in Hk. destruct Hk as [Hne Hk].
  destruct (decide (k0 = k)); [congruence|]. cbn [app]. f_equal. now apply IH.
Qed.

Lemma dict_set_same (f : string -> V) (d : Dict V) k :
  Forall (fun kv => snd kv = f (fst kv)) d ->
  k ∈ dict_keys d -> dict_set d k (f k) = d.
Proof.
  induction d as [|[k0 v0] d IH]; cbn [dict_set dict_keys map fst];
    intros Hwf Hk; [inversion Hk|].
  inversion Hwf as [|? ? Hv Hwf']; subst. cbn [fst snd] in Hv.
  destruct (decide (k0 = k)) as [Heq|Hne]; [subst; reflexivity|].
  rewrite elem_of_cons in Hk. destruct Hk as [->|Hk]; [congruence|].
  f_equal. now apply IH.
Qed.

(** A dictionary filled key by key lists the keys in order of first
    appearance. *)
Lemma fold_set_first_seen (f : string -> V) ks : forall d,
  Forall (fun kv => snd kv = f (fst kv)) d ->
  fold_left (fun d k => dict_set d k (f k)) ks d
  = d ++ map (fun k => (k, f k)) (first_seen (dict_keys d) ks).
Proof.
  induction ks as [|k ks IH]; intros d Hwf; cbn [fold_left first_seen map].
  - now rewrite app_nil_r.
  - destruct (decide (k ∈ dict_keys d)) as [Hin|Hin].
    + rewrite (dict_set_same f d k Hwf Hin). now apply IH.
    + rewrite (dict_set_fresh d k (f k) Hin), IH.
      * unfold dict_keys. rewrite map_app. cbn [map fst app]. now rewrite <- app_assoc.
      * apply Forall_app. split; [exact Hwf|]. now constructor.
Qed.

Lemma dict_comprehension_first_seen (f : string -> V) ks :
  dict_comprehension f ks = map (fun k => (k, f k)) (first_seen [] ks).
Proof. unfold dict_comprehension. now rewrite fold_set_first_seen by constructor. Qed.

End DictFacts.

Lemma first_seen_elem ks : forall seen x,
  x ∈ ks -> x ∈ seen \/ x ∈ first_seen seen ks.
Proof.
  induction ks as [|k ks IH]; intros seen x Hx; [inversion Hx|].
  cbn [first_seen]. rewrite elem_of_cons in Hx. destruct Hx as [->|Hx].
  - destruct (decide (k ∈ seen)); [now left|right; constructor].
  - destruct (decide (k ∈ seen)).
    + now apply IH.
    + destruct (IH (seen ++ [k]) x Hx) as [H1|H1].
      * rewrite elem_of_app, list_elem_of_singleton in H1.
        destruct H1 as [H1| ->]; [now left|right; constructor].
      * right. now constructor.
Qed.

(** An entry of the first-appearance list splits the original list at the
    entry's first occurrence: whatever precedes it was seen earlier. *)
Lemma first_seen_split ks : forall seen pl k ql,
  first_seen seen ks = pl ++ k :: ql ->
  exists pre post, ks = pre ++ k :: post /\
    (forall x, x ∈ pre -> x ∈ seen \/ x ∈ pl) /\
    (forall x, x ∈ post -> x ∈ seen \/ x ∈ pl \/ x = k \/ x ∈ ql).
Proof.
  induction ks as [|k0 ks IH]; intros seen pl k ql Heq; cbn [first_seen] in Heq.
  - destruct pl; discriminate.
  - destruct (decide (k0 ∈ seen)) as [Hin|Hin].
    + destruct (IH _ _ _ _ Heq) as (pre & post & -> & Hpre & Hpost).
      exists (k0 :: pre), post. split; [reflexivity|]. split; [|exact Hpost].
      intros x Hx. rewrite elem_of_cons in Hx. destruct Hx as [->|Hx]; auto.
    + destruct pl as [|p pl]; simpl in Heq.
      * injection Heq as -> Hql.
        exists [], ks. split; [reflexivity|]. split; [intros x Hx; inversion Hx|].
        intros x Hx. destruct (first_seen_elem ks (seen ++ [k]) x Hx) as [H1|H1].
        -- rewrite elem_of_app, list_elem_of_singleton in H1. tauto.
        -- rewrite Hql in H1. tauto.
      * injection Heq as -> Hrest.
        destruct (IH _ _ _ _ Hrest) as (pre & post & -> & Hpre & Hpost).
        exists (p :: pre), post. split; [reflexivity|]. split.
        -- intros x Hx. rewrite elem_of_cons in Hx. destruct Hx as [->|Hx].
           ++ right. constructor.
           ++ destruct (Hpre x Hx) as [H1|H1].
              ** rewrite elem_of_app, list_elem_of_singleton in H1.
                 destruct H1 as [H1| ->]; [now left|right; constructor].
              ** right. now constructor.
        -- intros x Hx. destruct (Hpost x Hx) as [H1|[H1|H1]].
           ++ rewrite elem_of_app, list_elem_of_singleton in H1.
              destruct H1 as [H1| ->]; [now left|right; left; constructor].
           ++ right; left. now constructor.
           ++ tauto.
Qed.

(** *** [max] with a key *)

Lemma max_from_split items : forall pre best mid,
  (forall x, x ∈ pre -> snd x < snd best) ->
  (forall x, x ∈ mid -> snd x <= snd best) ->
  exists pre' post',
    pre ++ best :: mid ++ items = pre' ++ max_from best items :: post' /\
    (forall x, x ∈ pre' -> snd x < snd (max_from best items)) /\
    (forall x, x ∈ post' -> snd x <= snd (max_from best items)).
Proof.
  induction items as [|kv items IH]; intros pre best mid Hpre Hmid; simpl.
  - exists pre, mid. rewrite app_nil_r. auto.
  - destruct (snd best <? snd kv) eqn:Hlt.
    + apply Z.ltb_lt in Hlt.
      destruct (IH (pre ++ best :: mid) kv []) as (pre' & post' & Heq & H1 & H2).
      * intros x Hx. rewrite elem_of_app, elem_of_cons in Hx.
        destruct Hx as [Hx|[->|Hx]]; [specialize (Hpre x Hx)| |specialize (Hmid x Hx)]; lia.
      * intros x Hx. inversion Hx.
      * exists pre', post'. split; [|auto].
        rewrite <- Heq. simpl. now rewrite <- app_assoc.
    + apply Z.ltb_ge in Hlt.
      destruct (IH pre best (mid ++ [kv])) as (pre' & post' & Heq & H1 & H2).
      * exact Hpre.
      * intros x Hx. rewrite elem_of_app, list_elem_of_singleton in Hx.
        destruct Hx as [Hx| ->]; [now apply Hmid|exact Hlt].
      * exists pre', post'. split; [|auto].
        rewrite <- Heq. now rewrite <- app_assoc.
Qed.

(** *** The keyword classifier *)

Section PickLabel.
Variable str_title : string -> string.
Variable g : Globals.

Lemma lexicon_index labels l :
  l ∈ labels -> dict_index (lexicon_of g labels) l = Return (keywords_of g l).
Proof.
  intros Hl. unfold dict_index, lexicon_of, dict_comprehension.
  rewrite dict_get_fold. destruct (decide (l ∈ labels)); [reflexivity|contradiction].
Qed.

Lemma scores_fold text lexicon ls : forall d : Dict Z,
  (forall l, l ∈ ls -> dict_index lexicon l = Return (keywords_of g l)) ->
  fold_left
    (fun acc lbl =>
       bind acc (fun scores =>
       bind (dict_index lexicon lbl) (fun kws =>
       Return (dict_set scores lbl (_keyword_score text kws)))))
    ls (Return d)
  = Return (fold_left (fun d k => dict_set d k (score_of g text k)) ls d).
Proof.
  induction ls as [|l ls IH]; intros d Hidx; cbn [fold_left]; [reflexivity|].
  cbn [bind]. rewrite (Hidx l) by constructor. cbn [bind].
  apply IH. intros l' Hl'. apply Hidx. now constructor.
Qed.

Lemma keyword_scores_built labels text :
  keyword_scores labels (lexicon_of g labels) text
  = Return (dict_comprehension (score_of g text) labels).
Proof.
  unfold keyword_scores, dict_comprehension.
  apply scores_fold. intros l Hl. now apply lexicon_index.
Qed.

(** What [pick_label] computes, label list in hand: the first label whose
    hit count is largest, unless that count is zero. *)
Lemma pick_label_spec labels text :
  labels <> [] ->
  exists before best after,
    labels = before ++ best :: after /\
    (forall l, l ∈ before -> score_of g text l < score_of g text best) /\
    (forall l, l ∈ after -> score_of g text l <= score_of g text best) /\
    pick_label labels (lexicon_of g labels) text
    = Return (if score_of g text best =? 0
              then ("Other", Binary64 (S754_zero false))
              else (best, OfInt (score_of g text best))).
Proof.
  intros Hne. unfold pick_label.
  rewrite keyword_scores_built, dict_comprehension_first_seen.
  destruct labels as [|l0 ls]; [congruence|].
  cbn [first_seen]. destruct (decide (l0 ∈ [])) as [Hin|_]; [inversion Hin|].
  cbn [map py_max bind app].
  set (rest := map (fun k => (k, score_of g text k)) (first_seen [l0] ls)).
  destruct (max_from_split rest [] (l0, score_of g text l0) [])
    as (pre' & post' & Heq & Hlt & Hle);
    [intros x Hx; inversion Hx | intros x Hx; inversion Hx |].
  cbn [app] in Heq.
  change ((l0, score_of g text l0) :: rest)
    with (map (fun k => (k, score_of g text k)) (l0 :: first_seen [l0] ls)) in Heq.
  destruct (map_eq_app _ _ _ _ Heq) as (pl & tl & Hfs & Hpl & Htl).
  destruct (map_eq_cons _ _ Htl) as (b & ql & -> & Hb & Hql).
  assert (Hfs' : first_seen [] (l0 :: ls) = pl ++ b :: ql).
  { cbn [first_seen]. destruct (decide (l0 ∈ [])) as [Hin|_]; [inversion Hin|]. exact Hfs. }
  destruct (first_seen_split _ _ _ _ _ Hfs') as (pre & post & Hlabels & Hpre & Hpost).
  assert (Hscore_pl : forall x, x ∈ pl -> score_of g text x < score_of g text b).
  { intros x Hx.
    assert (Hm : (x, score_of g text x) ∈ pre').
    { rewrite <- Hpl. apply list_elem_of_In, in_map_iff. exists x.
      split; [reflexivity|now apply list_elem_of_In]. }
    specialize (Hlt _ Hm). rewrite <- Hb in Hlt. exact Hlt. }
  assert (Hscore_ql : forall x, x ∈ ql -> score_of g text x <= score_of g text b).
  { intros x Hx.
    assert (Hm : (x, score_of g text x) ∈ post').
    { rewrite <- Hql. apply list_elem_of_In, in_map_iff. exists x.
      split; [reflexivity|now apply list_elem_of_In]. }
    specialize (Hle _ Hm). rewrite <- Hb in Hle. exact Hle. }
  exists pre, b, post. split; [exact Hlabels|]. split; [|split].
  - intros l Hl. destruct (Hpre l Hl) as [H|H]; [inversion H|now apply Hscore_pl].
  - intros l Hl. destruct (Hpost l Hl) as [H|[H|[->|H]]].
    + inversion H.
    + specialize (Hscore_pl l H). lia.
    + lia.
    + now apply Hscore_ql.
  - fold rest. rewrite <- Hb. now destruct (score_of g text b =? 0).
Qed.

Lemma labels_of_nonempty candidate_labels :
  DEFAULT_DOMAIN_LABELS g <> [] -> labels_of str_title g candidate_labels <> [].
Proof.
  intros Hd. unfold labels_of.
  destruct candidate_labels as [[|l ls]|]; cbn [map]; try discriminate;
    destruct (DEFAULT_DOMAIN_LABELS g); cbn [map]; congruence.
Qed.

End PickLabel.

(** *** Frames *)

Lemma series_apply_Forall2 {A B} (f : A -> result B) (P : A -> B -> Prop) l :
  (forall a, exists b, f a = Return b /\ P a b) ->
  exists bs, series_apply f l = Return bs /\ Forall2 P l bs.
Proof.
  intros Hf. induction l as [|a l (bs & IH & HP)]; cbn [series_apply].
  - exists []. split; [reflexivity|constructor].
  - destruct (Hf a) as (b & Hb & Pb). rewrite Hb, IH. cbn [bind].
    exists (b :: bs). split; [reflexivity|now constructor].
Qed.

Lemma zip_set_domain (P : string -> string * PyFloat -> Prop) df : forall bs,
  Forall2 P (map text_clean df) bs ->
  Forall2 (fun r r' => exists a, r' = set_domain a r /\ P (text_clean r) a)
          df (zip_with set_domain bs df).
Proof.
  induction df as [|r df IH]; intros bs Hbs; cbn [map] in Hbs.
  - inversion Hbs; subst. constructor.
  - inversion Hbs as [|? b ? bs' Hb Hbs']; subst. cbn [zip_with].
    constructor; [exists b; auto|now apply IH].
Qed.

Section Frames.
Variable str_title : string -> string.
Variable py_str : JSON -> string.

(** Row by row, [classify_domains_keyword] stores what [pick_label] returns. *)
Lemma classify_domains_keyword_rows g df candidate_labels
    (P : string -> string * PyFloat -> Prop) :
  (forall text, exists a,
      pick_label (labels_of str_title g candidate_labels)
        (lexicon_of g (labels_of str_title g candidate_labels)) text = Return a /\
      P text a) ->
  exists out,
    classify_domains_keyword str_title g df candidate_labels = Return out /\
    Forall2 (fun r r' => exists a, r' = set_domain a r /\ P (text_clean r) a) df out.
Proof.
  intros Hpick. unfold classify_domains_keyword.
  destruct (series_apply_Forall2 _ P (map text_clean df) Hpick) as (bs & Happ & Hall).
  change (dict_comprehension _ ?l) with (lexicon_of g l).
  rewrite Happ. cbn [bind].
  eexists. split; [reflexivity|]. now apply zip_set_domain.
Qed.

Lemma import_module_returns w :
  exists g, import_module str_title py_str w = Return g /\ DEFAULT_DOMAIN_LABELS g <> [].
Proof.
  unfold import_module, _load_external_lexicon. cbn [bind].
  destruct (try_except _ _) as [[|e ext]|]; eexists; (split; [reflexivity|discriminate]).
Qed.

Lemma import_module_labels w g :
  import_module str_title py_str w = Return g -> DEFAULT_DOMAIN_LABELS g <> [].
Proof.
  intros Hg. destruct (import_module_returns w) as (g' & Hg' & Hne). congruence.
Qed.

Lemma keyword_score_nil text : _keyword_score text [] = 0.
Proof. reflexivity. Qed.

(** C7, as amended: in every row that [classify_domains_keyword] returns, a
    confidence of zero comes with the label ["Other"]; the label ["Other"]
    comes with a confidence of zero when the lexicon in effect has no
    entry named ["Other"] (the built-in one has none); and a text with no
    keyword of any candidate label gets [("Other", 0.0)]. *)
Theorem keyword_other_iff_zero w g df candidate_labels :
  import_module str_title py_str w = Return g ->
  exists out,
    classify_domains_keyword str_title g df candidate_labels = Return out /\
    Forall2
      (fun r r' =>
         text_clean r' = text_clean r /\
         exists label confidence,
           domain_label r' = Some label /\ domain_confidence r' = Some confidence /\
           (float_is_zero confidence = true -> label = "Other") /\
           (dict_get (KEYWORD_LEXICON g) "Other" = None ->
            label = "Other" -> float_is_zero confidence = true) /\
           ((forall l, l ∈ labels_of str_title g candidate_labels ->
                       score_of g (text_clean r) l = 0) ->
            label = "Other" /\ confidence = Binary64 (S754_zero false)))
      df out.
Proof.
  intros Hg.
  set (labels := labels_of str_title g candidate_labels).
  set (P := fun (text : string) (a : string * PyFloat) =>
         (float_is_zero (snd a) = true -> fst a = "Other") /\
         (dict_get (KEYWORD_LEXICON g) "Other" = None ->
          fst a = "Other" -> float_is_zero (snd a) = true) /\
         ((forall l, l ∈ labels -> score_of g text l = 0) ->
          fst a = "Other" /\ snd a = Binary64 (S754_zero false))).
  destruct (classify_domains_keyword_rows g df candidate_labels P) as (out & Hout & Hrows).
  - intros text.
    destruct (pick_label_spec g labels text) as (before & best & after & Hl & _ & _ & Hpick).
    { apply labels_of_nonempty. eapply import_module_labels, Hg. }
    eexists. split; [exact Hpick|].
    destruct (score_of g text best =? 0) eqn:Hz; unfold P; cbn [fst snd].
    + split; [reflexivity|]. split; [reflexivity|]. intros _. split; reflexivity.
    + apply Z.eqb_neq in Hz. split.
      { cbn [float_is_zero]. intros H%Z.eqb_eq. contradiction. }
      split.
      * intros Hno ->. exfalso. apply Hz.
        unfold score_of, keywords_of. rewrite Hno. reflexivity.
      * intros Hall. exfalso. apply Hz, Hall. fold labels in Hl. rewrite Hl.
        rewrite elem_of_app, elem_of_cons. auto.
  - exists out. split; [exact Hout|].
    eapply Forall2_impl; [exact Hrows|].
    intros r r' ([label confidence] & -> & H1 & H2 & H3).
    split; [reflexivity|]. exists label, confidence. cbn [fst snd] in *.
    repeat split; auto; now apply H3.
Qed.


(** C9: when the file to load is missing, unreadable, not valid JSON or
    holds something else than an object, or when the working directory
    cannot be determined, [_load_external_lexicon] returns [None] without
    raising, and the import leaves the built-in lexicon and labels in
    place; whatever the file, neither the loader nor the import raises. *)
Theorem lexicon_load_failure_is_silent w path :
  (forall p, candidate_path w path = Return p -> overrides (file_at w p) = false) ->
  _load_external_lexicon str_title py_str w path = Return None /\
  (path = None -> import_module str_title py_str w = Return builtin_globals) /\
  (forall w' path',
     (exists r, _load_external_lexicon str_title py_str w' path' = Return r) /\
     (exists g', import_module str_title py_str w' = Return g')).
Proof.
  intros Hbad.
  assert (Hload : _load_external_lexicon str_title py_str w path = Return None).
  { unfold _load_external_lexicon, load_body. f_equal.
    destruct (candidate_path w path) as [p|e] eqn:Hp; cbn [bind try_except]; [|reflexivity].
    specialize (Hbad p eq_refl).
    destruct (file_at w p) as [| | |[]]; try reflexivity; discriminate. }
  split; [exact Hload|]. split.
  - intros ->. unfold import_module. rewrite Hload. reflexivity.
  - intros w' path'. split; [eexists; reflexivity|].
    destruct (import_module_returns w') as (g' & Hg' & _). eauto.
Qed.

(** C10: a [method] whose stripped, lower-cased form (["keyword"] standing
    in for [None] and the empty string) is not ["zero-shot"] makes
    [analyze_domains] run the keyword classifier; nothing is raised for an
    unknown name. *)
Theorem analyze_domains_falls_back_to_keyword pipeline g df candidate_labels method :
  method_norm method <> "zero-shot" ->
  analyze_domains str_title pipeline g df candidate_labels method
  = classify_domains_keyword str_title g df candidate_labels.
Proof.
  intros Hm. unfold analyze_domains.
  destruct (decide (method_norm method = "zero-shot")); [contradiction|reflexivity].
Qed.

End Frames.

Lemma keyword_other_iff_zero_witness :
  import_module ascii_title no_str no_file_world = Return builtin_globals /\
  exists out,
    classify_domains_keyword ascii_title builtin_globals sample_frame None = Return out /\
    length out = length sample_frame.
Proof.
  split; [reflexivity|].
  destruct (keyword_other_iff_zero ascii_title no_str no_file_world builtin_globals
              sample_frame None eq_refl) as (out & Hout & Hrows).
  exists out. split; [exact Hout|]. symmetry. exact (Forall2_length _ _ _ Hrows).
Defined.

(** A lexicon file with an entry for ["other"]: the label ["Other"] is
    then an ordinary candidate and is returned with its hit count. *)
Lemma other_with_hits_counterexample :
  import_module ascii_title no_str (file_world other_lexicon_file) = Return other_globals /\
  classify_domains_keyword ascii_title other_globals [mkRow "misc news" None None] None
  = Return [mkRow "misc news" (Some "Other") (Some (OfInt 1))] /\
  float_is_zero (OfInt 1) = false.
Proof. split; [reflexivity|]. split; reflexivity. Qed.


(** On a tie between "Business" and "Sports" the candidate named first wins. *)
Lemma keyword_tie_examples :
  classify_domains_keyword ascii_title builtin_globals sample_frame
    (Some ["business "; " sports"])
  = Return [ mkRow "the game and the market" (Some "Business") (Some (OfInt 1));
             mkRow "hello" (Some "Other") (Some (Binary64 (S754_zero false))) ] /\
  classify_domains_keyword ascii_title builtin_globals sample_frame
    (Some ["sports"; "business"])
  = Return [ mkRow "the game and the market" (Some "Sports") (Some (OfInt 1));
             mkRow "hello" (Some "Other") (Some (Binary64 (S754_zero false))) ].
Proof. split; reflexivity. Qed.

Lemma lexicon_load_failure_is_silent_witness :
  (forall p, candidate_path (file_world (JArray [])) None = Return p ->
             overrides (file_at (file_world (JArray [])) p) = false) /\
  _load_external_lexicon ascii_title no_str (file_world (JArray [])) None = Return None /\
  import_module ascii_title no_str (file_world (JArray [])) = Return builtin_globals.
Proof.
  assert (H : forall p, candidate_path (file_world (JArray [])) None = Return p ->
                        overrides (file_at (file_world (JArray [])) p) = false).
  { intros p Hp. vm_compute in Hp. injection Hp as <-. reflexivity. }
  split; [exact H|].
  destruct (lexicon_load_failure_is_silent ascii_title no_str (file_world (JArray [])) None H)
    as (Hload & Himport & _).
  split; [exact Hload|exact (Himport eq_refl)].
Defined.

Lemma method_norm_examples :
  method_norm None = "keyword" /\ method_norm (Some "") = "keyword" /\
  method_norm (Some "  Zero-Shot ") = "zero-shot" /\
  method_norm (Some "zeroshot") = "zeroshot" /\
  method_norm (Some "zero shot") = "zero shot".
Proof. repeat split; reflexivity. Qed.

Lemma analyze_domains_falls_back_to_keyword_witness :
  method_norm (Some "zeroshot") <> "zero-shot" /\
  analyze_domains ascii_title None builtin_globals sample_frame None (Some "zeroshot")
  = classify_domains_keyword ascii_title builtin_globals sample_frame None.
Proof.
  split; [discriminate|].
  apply (analyze_domains_falls_back_to_keyword ascii_title None builtin_globals
           sample_frame None (Some "zeroshot")).
  discriminate.
Defined.

End DomainFacts.

(** ** More on text cleaning *)

Module CleanTextFacts.
Import PyStr Utils TextSpec UtilsFacts.

(** *** Characters that pass through *)

Section AllChars.
Variable P : ascii -> bool.

Lemma all_chars_lstrip s : all_chars P s = true -> all_chars P (lstrip s) = true.
Proof.
  induction s as [|c s IH]; [reflexivity|]. cbn [lstrip].
  destruct (is_space c); [|tauto]. cbn [all_chars]. intros (_ & H)%andb_true_iff. auto.
Qed.

Lemma all_chars_rstrip s : all_chars P s = true -> all_chars P (rstrip s) = true.
Proof.
  induction s as [|c s IH]; [reflexivity|]. cbn [rstrip all_chars].
  intros (Hc & H)%andb_true_iff.
  destruct (is_space c && is_empty (rstrip s)); [reflexivity|].
  cbn [all_chars]. now rewrite Hc, IH.
Qed.

Lemma all_chars_strip s : all_chars P s = true -> all_chars P (strip s) = true.
Proof. intros H. unfold strip. now apply all_chars_rstrip, all_chars_lstrip. Qed.

Lemma all_chars_append a b :
  all_chars P a = true -> all_chars P b = true -> all_chars P (a +:+ b) = true.
Proof.
  induction a as [|c a IH]; [tauto|]. simpl.
  intros (Hc & Ha)%andb_true_iff Hb. now rewrite Hc, IH.
Qed.

Lemma all_chars_sub_literal pat rep s : all_chars P rep = true ->
  forall k, all_chars P s = true -> all_chars P (sub_literal pat rep k s) = true.
Proof.
  intros Hrep. induction s as [|c s IH]; intros k; [reflexivity|].
  cbn [sub_literal all_chars]. intros (Hc & Hs)%andb_true_iff.
  destruct k as [|k]; [|now apply IH].
  destruct (starts_with pat (String c s)).
  - apply all_chars_append; [exact Hrep|now apply IH].
  - cbn [all_chars]. now rewrite Hc, IH.
Qed.

Lemma all_chars_sub_hashtag s : all_chars P s = true -> all_chars P (sub_hashtag s) = true.
Proof.
  induction s as [|c s IH]; [reflexivity|]. cbn [sub_hashtag all_chars].
  intros (Hc & Hs)%andb_true_iff.
  destruct (Ascii.eqb c "#"); [auto|]. cbn [all_chars]. now rewrite Hc, IH.
Qed.

Hypothesis P_space : P " " = true.

Lemma all_chars_sub_url s : forall b,
  all_chars P s = true -> all_chars P (sub_url b s) = true.
Proof.
  induction s as [|c s IH]; intros b; [reflexivity|].
  cbn [sub_url all_chars]. intros (Hc & Hs)%andb_true_iff.
  destruct b.
  - destruct (is_space c); [cbn [all_chars]; now rewrite Hc, IH|now apply IH].
  - destruct (url_at (String c s)); cbn [all_chars]; [rewrite P_space|rewrite Hc]; now rewrite IH.
Qed.

Lemma all_chars_sub_mention s : forall b,
  all_chars P s = true -> all_chars P (sub_mention b s) = true.
Proof.
  induction s as [|c s IH]; intros b; [reflexivity|].
  cbn [sub_mention all_chars]. intros (Hc & Hs)%andb_true_iff.
  destruct (b && is_word c); [now apply IH|].
  destruct (mention_at (String c s)); cbn [all_chars]; [rewrite P_space|rewrite Hc]; now rewrite IH.
Qed.

Lemma all_chars_sub_multispace s : forall b,
  all_chars P s = true -> all_chars P (sub_multispace b s) = true.
Proof.
  induction s as [|c s IH]; intros b; [reflexivity|].
  cbn [sub_multispace all_chars]. intros (Hc & Hs)%andb_true_iff.
  destruct (is_space c); [destruct b|]; cbn [all_chars];
    rewrite ?P_space, ?Hc; now rewrite ?IH.
Qed.

End AllChars.

Lemma all_chars_lower (P : ascii -> bool) s :
  (forall c, P c = true -> P (lower_char c) = true) ->
  all_chars P s = true -> all_chars P (lower s) = true.
Proof.
  intros HP. induction s as [|c s IH]; [reflexivity|]. cbn [lower all_chars].
  intros (Hc & Hs)%andb_true_iff. now rewrite (HP c Hc), IH.
Qed.

Lemma sub_hashtag_clears s : all_chars not_hash (sub_hashtag s) = true.
Proof.
  induction s as [|c s IH]; [reflexivity|]. cbn [sub_hashtag].
  destruct (Ascii.eqb c "#") eqn:Hc; [exact IH|].
  cbn [all_chars]. unfold not_hash at 1. now rewrite Hc, IH.
Qed.

Lemma not_hash_contains s : all_chars not_hash s = true -> contains "#" s = false.
Proof.
  induction s as [|c s IH]; [reflexivity|]. cbn [all_chars contains starts_with].
  intros (Hc & Hs)%andb_true_iff. unfold not_hash in Hc.
  rewrite andb_true_r, Ascii.eqb_sym. apply negb_true_iff in Hc. now rewrite Hc, IH.
Qed.

Lemma not_hash_lower_char c : not_hash c = true -> not_hash (lower_char c) = true.
Proof. each_char c; auto. Qed.

(** The text [clean_text] works on. *)
Lemma clean_text_some t : clean_text (Some t) =
  lower (strip (sub_multispace false
    (sub_literal "&gt;" ">" O (sub_literal "&lt;" "<" O (sub_literal "&amp;" "&" O
      (sub_hashtag (sub_mention false (sub_url false t)))))))).
Proof. unfold clean_text. now rewrite text_or_empty. Qed.

Lemma clean_text_none : clean_text None = "".
Proof. reflexivity. Qed.

Lemma clean_text_single_spaced (x : option string) :
  single_spaced false (clean_text x) = true.
Proof.
  unfold clean_text. rewrite single_spaced_lower. unfold strip.
  apply single_spaced_rstrip, (single_spaced_lstrip _ false), sub_multispace_single_spaced.
Qed.

(** X1: whatever the input, the result of [clean_text] is in lower case,
    carries no whitespace at either end and has single spaces as its only
    whitespace. *)
Theorem clean_text_normal_form (x : option string) :
  lower (clean_text x) = clean_text x /\
  strip (clean_text x) = clean_text x /\
  single_spaced false (clean_text x) = true.
Proof.
  destruct (clean_text_normal x) as (Hlow & Hstrip & _).
  split; [exact Hlow|]. split; [exact Hstrip|].
  apply clean_text_single_spaced.
Qed.

(** X2: [clean_text] never returns more characters than the lower-cased
    input has: every step before the final [lower()] deletes characters or
    puts a single one in place of a longer match. *)
Theorem clean_text_never_longer (t : string) :
  (String.length (clean_text (Some t)) <= String.length (lower t))%nat.
Proof.
  rewrite clean_text_some, !lower_length.
  set (y1 := sub_url false t).
  set (y2 := sub_mention false y1).
  set (y3 := sub_hashtag y2).
  set (y4 := sub_literal "&amp;" "&" O y3).
  set (y5 := sub_literal "&lt;" "<" O y4).
  set (y6 := sub_literal "&gt;" ">" O y5).
  pose proof (strip_length (sub_multispace false y6)) as H8.
  pose proof (sub_multispace_length y6 false) as H7.
  pose proof (sub_literal_length "&gt;" ">" y5 ltac:(cbn; lia) 0%nat ltac:(lia)) as H6.
  pose proof (sub_literal_length "&lt;" "<" y4 ltac:(cbn; lia) 0%nat ltac:(lia)) as H5.
  pose proof (sub_literal_length "&amp;" "&" y3 ltac:(cbn; lia) 0%nat ltac:(lia)) as H4.
  pose proof (sub_hashtag_length y2) as H3.
  pose proof (sub_mention_length y1 false) as H2.
  pose proof (sub_url_length t false) as H1.
  fold y1 in H1. fold y2 in H2. fold y3 in H3. fold y4 in H4. fold y5 in H5. fold y6 in H6.
  lia.
Qed.

(** X3: no [#] is left in the result of [clean_text]. *)
Theorem clean_text_has_no_hash (x : option string) :
  contains "#" (clean_text x) = false.
Proof.
  apply not_hash_contains.
  destruct x as [t|]; [|reflexivity].
  rewrite clean_text_some.
  apply all_chars_lower; [exact not_hash_lower_char|].
  apply all_chars_strip, all_chars_sub_multispace; [reflexivity|].
  repeat (apply all_chars_sub_literal; [reflexivity|]).
  apply sub_hashtag_clears.
Qed.

(** *** Blank input *)

Lemma blank_no_literal pat s :
  match pat with String c _ => is_space c = false | EmptyString => False end ->
  all_chars is_space s = true -> contains pat s = false.
Proof.
  destruct pat as [|a pat]; [tauto|]. intros Ha.
  induction s as [|c s IH]; [reflexivity|]. cbn [all_chars contains starts_with].
  intros (Hc & Hs)%andb_true_iff. rewrite (IH Hs), orb_false_r.
  destruct (Ascii.eqb_spec a c) as [->|]; [congruence|reflexivity].
Qed.

Lemma blank_lstrip s : all_chars is_space s = true -> lstrip s = "".
Proof.
  induction s as [|c s IH]; [reflexivity|]. cbn [all_chars lstrip].
  intros (-> & Hs)%andb_true_iff. auto.
Qed.

(** X4: a missing, empty or all-whitespace text is cleaned to the empty string. *)
Theorem clean_text_blank (x : option string) :
  match x with Some t => all_chars is_space t = true | None => True end ->
  clean_text x = "".
Proof.
  destruct x as [t|]; [|reflexivity]. intros Hblank. rewrite clean_text_some.
  assert (H3 : all_chars is_space (sub_hashtag (sub_mention false (sub_url false t))) = true).
  { apply all_chars_sub_hashtag, all_chars_sub_mention, all_chars_sub_url;
      (reflexivity || exact Hblank). }
  rewrite (sub_literal_fixed "&amp;" "&" _ (blank_no_literal "&amp;" _ eq_refl H3)).
  rewrite (sub_literal_fixed "&lt;" "<" _ (blank_no_literal "&lt;" _ eq_refl H3)).
  rewrite (sub_literal_fixed "&gt;" ">" _ (blank_no_literal "&gt;" _ eq_refl H3)).
  unfold strip. rewrite blank_lstrip; [reflexivity|].
  now apply all_chars_sub_multispace.
Qed.

Lemma clean_text_blank_witness :
  all_chars is_space "  	 " = true /\ clean_text (Some "  	 ") = "".
Proof.
  split; [reflexivity|]. apply (clean_text_blank (Some "  	 ")). reflexivity.
Defined.

(** X5: the texts [clean_text] leaves as they are are exactly those in
    lower case, trimmed, single-spaced and free of every pattern it rewrites. *)
Theorem clean_text_fixed_points (y : string) :
  clean_text (Some y) = y <->
  lower y = y /\ strip y = y /\ sub_multispace false y = y /\ pattern_free y = true.
Proof.
  split.
  - intros Hfix. destruct (clean_text_normal (Some y)) as (Hlow & Hstrip & Hms).
    rewrite Hfix in Hlow, Hstrip, Hms. repeat split; try assumption.
    destruct (pattern_free y) eqn:Hpf; [reflexivity|].
    pose proof (clean_text_shorter y Hpf) as Hlen. rewrite Hfix in Hlen. lia.
  - intros (Hlow & Hstrip & Hms & Hpf). now apply clean_text_fixed.
Qed.

Lemma clean_text_fixed_points_witness :
  pattern_free "check cool & done" = true /\
  clean_text (Some "check cool & done") = "check cool & done".
Proof.
  split; [reflexivity|].
  apply (proj2 (clean_text_fixed_points "check cool & done")). repeat split.
Defined.

End CleanTextFacts.

(** ** More on sentiment *)

Module SentimentFrameFacts.
Import Sentiment SentimentFrame SentimentFacts.

Lemma SFopp_involutive x : SFopp (SFopp x) = x.
Proof. destruct x as [s|s| |s m e]; cbn [SFopp]; try reflexivity; now rewrite negb_involutive. Qed.

(** Negating both operands reverses a comparison. *)
Lemma SFcompare_opp x y : SFcompare (SFopp x) (SFopp y) = SFcompare y x.
Proof.
  destruct x as [sx|sx| |sx mx ex], y as [sy|sy| |sy my ey]; cbn [SFopp SFcompare];
    try reflexivity; try (destruct sx; reflexivity); try (destruct sy; reflexivity);
    try (destruct sx, sy; reflexivity).
  destruct sx, sy; cbn [negb]; try reflexivity.
  - rewrite (Z.compare_antisym ey ex). destruct (ey ?= ex); cbn [CompOpp]; try reflexivity.
    now rewrite Pos.compare_cont_antisym.
  - rewrite (Z.compare_antisym ey ex). destruct (ey ?= ex); cbn [CompOpp]; try reflexivity.
    now rewrite Pos.compare_cont_antisym.
Qed.

Lemma float_ge_opp c : float_ge (SFopp c) f_0_05 = float_le c f_neg_0_05.
Proof.
  unfold float_ge, float_le, f_neg_0_05, SFleb.
  rewrite <- (SFopp_involutive f_0_05) at 1. now rewrite SFcompare_opp.
Qed.

Lemma float_le_opp c : float_le (SFopp c) f_neg_0_05 = float_ge c f_0_05.
Proof. unfold float_ge, float_le, f_neg_0_05, SFleb. now rewrite SFcompare_opp. Qed.

(** X6: the thresholds are symmetric: negating the score swaps Positive
    and Negative and keeps Neutral. *)
Theorem score_to_label_opp (compound : float) :
  score_to_label (SFopp compound) = mirror_label (score_to_label compound).
Proof.
  unfold score_to_label. rewrite float_ge_opp, float_le_opp.
  pose proof (thresholds_exclusive compound) as Hex.
  destruct (float_ge compound f_0_05).
  - rewrite (Hex eq_refl). reflexivity.
  - destruct (float_le compound f_neg_0_05); reflexivity.
Qed.

(** [analyze_sentiments] keeps the rows, their order and their text;
    each row gets the compound score of its own text and the label the
    thresholds give for that score, one of the three labels. *)
Theorem analyze_sentiments_rows (polarity_scores : string -> Scores) (df : list Row) :
  Forall2
    (fun r r' =>
       text_clean r' = text_clean r /\
       row_compound r' = Some (compound (polarity_scores (text_clean r))) /\
       sentiment_label r'
       = Some (score_to_label (compound (polarity_scores (text_clean r)))) /\
       exists label, sentiment_label r' = Some label /\
                     label ∈ ["Positive"; "Negative"; "Neutral"])
    df (analyze_sentiments polarity_scores df).
Proof.
  unfold analyze_sentiments. induction df as [|r df IH]; cbn [map zip_with]; constructor.
  - cbn. repeat split. eexists. split; [reflexivity|].
    unfold score_to_label.
    destruct (float_ge _ _); [|destruct (float_le _ _)];
      apply list_elem_of_In; cbn; auto.
  - exact IH.
Qed.

End SentimentFrameFacts.

(** ** More on fetching *)

Module FetchFacts.
Import PyStr PyExn TwitterClient Upstream TwitterClientFacts.

(** *** The hint *)

Lemma decimal_value_nonneg s : forall acc,
  0 <= acc -> all_chars is_decimal s = true -> 0 <= decimal_value acc s.
Proof.
  induction s as [|c s IH]; intros acc Hacc; cbn [decimal_value all_chars]; [auto|].
  intros (Hc & Hs)%andb_true_iff. apply IH; [|exact Hs].
  unfold is_decimal, between in Hc. apply andb_true_iff in Hc as (Hlo%N.leb_le & _). lia.
Qed.

Lemma int_of_digits_nonneg s n : int_of_digits s = Some n -> 0 <= n.
Proof.
  unfold int_of_digits. destruct (negb (is_empty s) && all_chars is_decimal s) eqn:H;
    [|discriminate].
  intros [= <-]. apply andb_true_iff in H as (_ & H). now apply decimal_value_nonneg.
Qed.

(** X7: whatever the exception, its response and the clock, a hint that
    [_retry_after_from_response] gives is never negative. *)
Theorem retry_after_never_negative (now : Z) (e : Exn) (n : Z) :
  _retry_after_from_response now e = Some n -> 0 <= n.
Proof.
  unfold _retry_after_from_response, retry_after_body.
  destruct (response_of e) as [resp|]; [|discriminate].
  destruct (negb (resp_truthy resp) || negb (has_headers resp)); [discriminate|].
  destruct (numeric _).
  - unfold py_int. destruct (int_of_digits _) as [k|] eqn:Hk; cbn; [|discriminate].
    intros [= <-]. eapply int_of_digits_nonneg, Hk.
  - destruct (numeric _); [|discriminate].
    unfold py_int. destruct (int_of_digits _) as [k|] eqn:Hk; cbn; [|discriminate].
    intros [= <-]. lia.
Qed.

Lemma retry_after_never_negative_witness :
  _retry_after_from_response 1000
    (TooManyRequests (Some (mkHttpResponse true (HeadersDict {[ "x-rate-limit-reset" := "900" ]}))))
  = Some 0 /\ 0 <= 0.
Proof.
  split; [reflexivity|].
  apply (retry_after_never_negative 1000
           (TooManyRequests (Some (mkHttpResponse true
              (HeadersDict {[ "x-rate-limit-reset" := "900" ]})))) 0).
  reflexivity.
Defined.

(** *** The user lookup *)

(** X8: [get_user_by_username] hands back what the upstream returned (the
    user, or [None] for an unknown name). Tweepy's [TooManyRequests] leaves
    as a [RateLimitError] carrying the hint read from that exception, any
    other Tweepy error as a [RuntimeError] that names the user and keeps
    the cause; an exception of another kind passes through. So no Tweepy
    exception gets out, and a [RateLimitError] comes out only for a rate
    limit upstream. *)
Theorem get_user_by_username_outcomes {St}
    (api_get_user : St -> string -> St * result (option User)) now st username :
  let out := snd (get_user_by_username api_get_user now st username) in
  fst (get_user_by_username api_get_user now st username) = fst (api_get_user st username) /\
  (forall user, snd (api_get_user st username) = Return user -> out = Return user) /\
  (forall response,
     snd (api_get_user st username) = Raise (TooManyRequests response) ->
     out = Raise (RateLimitError (_retry_after_from_response now (TooManyRequests response)))) /\
  (snd (api_get_user st username) = Raise TweepyException ->
   out = Raise (RuntimeError ("Error fetching user '" +:+ username +:+ "'") TweepyException)) /\
  (forall e, snd (api_get_user st username) = Raise e ->
     (forall response, e <> TooManyRequests response) -> e <> TweepyException ->
     out = Raise e) /\
  (forall response, out <> Raise (TooManyRequests response)) /\
  out <> Raise TweepyException /\
  (forall hint, out = Raise (RateLimitError hint) ->
     (exists response,
        snd (api_get_user st username) = Raise (TooManyRequests response) /\
        hint = _retry_after_from_response now (TooManyRequests response)) \/
     snd (api_get_user st username) = Raise (RateLimitError hint)).
Proof.
  unfold get_user_by_username.
  destruct (api_get_user st username) as [st' [user|e]]; cbn [fst snd].
  - repeat apply conj; try discriminate; [reflexivity | now intros user' [= ->]].
  - destruct e; cbn [fst snd]; repeat apply conj; try discriminate; try reflexivity;
      try (intros ? [= <-]; reflexivity);
      try (intros e [= <-] Htoo Htweepy; first [reflexivity | exfalso; exact (Htoo _ eq_refl) | exfalso; exact (Htweepy eq_refl)]).
    + intros hint [= <-]. left. eexists. split; reflexivity.
    + intros hint [= <-]. right. reflexivity.
Qed.

(** *** The loop, seen through the journal *)

Section Journal.
Context {St : Type}.
Variable api : St -> Request -> St * result Response.
Variables (user_id : string) (exclude : list string) (start_time end_time : option Z).

Lemma fetch_loop_journal fuel : forall st log collected token remaining n,
  let r := fetch_loop (logged api) user_id exclude start_time end_time
             fuel (st, log) collected token remaining n in
  exists log',
    snd (run_state r) = log ++ log' /\
    Forall (fun c => well_formed user_id exclude start_time end_time remaining (fst c)) log' /\
    chained token log' /\
    match run_status r with
    | Raised e => exists req, last log' = Some (req, Raise e)
    | _ => Forall (fun c => exists resp, snd c = Return resp) log'
    end /\
    run_requests r = (n + length log')%nat /\
    run_collected r = collected ++ concat (map (fun c => page_items (snd c)) log').
Proof.
  induction fuel as [|fuel IH]; intros st log collected token remaining n; cbn [fetch_loop].
  - destruct (remaining >? 0); exists []; cbn; rewrite !app_nil_r; repeat split; auto; lia.
  - destruct (remaining >? 0) eqn:Hpos.
    2:{ exists []; cbn; rewrite !app_nil_r; repeat split; auto; lia. }
    apply Z.gtb_lt in Hpos.
    set (req := {| req_id := user_id; req_max_results := Z.min 100 remaining;
                   req_exclude := match exclude with [] => None | _ => Some exclude end;
                   req_start_time := start_time; req_end_time := end_time;
                   req_tweet_fields := ["created_at"; "public_metrics"];
                   req_pagination_token := token |}).
    assert (Hreq : well_formed user_id exclude start_time end_time remaining req).
    { unfold well_formed, req; cbn. repeat split; try reflexivity; try lia. }
    change (logged api (st, log) req)
      with (let (st', r) := api st req in ((st', log ++ [(req, r)]), r)).
    destruct (api st req) as [st' [resp|e]] eqn:Hcall.
    + destruct (data resp) as [items|] eqn:Hdata.
      * destruct (negb (truthy_opt (next_token resp))) eqn:Htok.
        -- exists [(req, Return resp)]. cbn.
           split; [reflexivity|]. split; [constructor; [exact Hreq|constructor]|].
           split; [cbn; auto|]. split; [constructor; [cbn; eauto|constructor]|].
           split; [cbn; lia|]. cbn. rewrite Hdata. cbn. now rewrite app_nil_r.
        -- specialize (IH st' (log ++ [(req, Return resp)]) (collected ++ items)
                          (next_token resp) (remaining - Z.of_nat (length items)) (S n)).
           cbn zeta in IH. destruct IH as (log' & H1 & H2 & H3 & H4 & H5 & H6).
           exists ((req, Return resp) :: log'). rewrite H1, H5, H6.
           split; [now rewrite <- app_assoc|]. split.
           { constructor; [exact Hreq|]. eapply Forall_impl; [exact H2|].
             intros c (Ha & Hb & Hc). split; [exact Ha|]. split; [lia|exact Hc]. }
           split; [cbn; auto|]. split.
           { destruct (run_status _).
             - constructor; [cbn; eauto|exact H4].
             - destruct H4 as (req' & H4). exists req'. destruct log'; [discriminate|exact H4].
             - constructor; [cbn; eauto|exact H4]. }
           split; [cbn; lia|]. cbn. rewrite Hdata. cbn. now rewrite <- app_assoc.
      * exists [(req, Return resp)]. cbn.
        split; [reflexivity|]. split; [constructor; [exact Hreq|constructor]|].
        split; [cbn; auto|]. split; [constructor; [cbn; eauto|constructor]|].
        split; [cbn; lia|]. cbn. rewrite Hdata. cbn. now rewrite app_nil_r.
    + exists [(req, Raise e)]. cbn.
      split; [reflexivity|]. split; [constructor; [exact Hreq|constructor]|].
      split; [cbn; auto|]. split; [exists req; reflexivity|].
      split; [cbn; lia|]. cbn. now rewrite app_nil_r.
Qed.

(** Keeping the journal changes nothing in what the loop does. *)
Lemma fetch_loop_logged fuel : forall st log collected token remaining n,
  let r := fetch_loop (logged api) user_id exclude start_time end_time
             fuel (st, log) collected token remaining n in
  let r0 := fetch_loop api user_id exclude start_time end_time
              fuel st collected token remaining n in
  fst (run_state r) = run_state r0 /\ run_status r = run_status r0 /\
  run_collected r = run_collected r0 /\ run_requests r = run_requests r0.
Proof.
  induction fuel as [|fuel IH]; intros st log collected token remaining n; cbn [fetch_loop].
  - destruct (remaining >? 0); cbn; auto.
  - destruct (remaining >? 0); [|cbn; auto].
    match goal with |- context [logged api (st, log) ?q] =>
      change (logged api (st, log) q)
        with (let (st', r) := api st q in ((st', log ++ [(q, r)]), r));
      destruct (api st q) as [st' [resp|e]]
    end; [|cbn; auto].
    destruct (data resp); [|cbn; auto].
    destruct (negb _); [cbn; auto|]. apply IH.
Qed.

(** With non-empty pages every further iteration needs a post less. *)
Lemma fetch_loop_ends (Hapi : nonempty_pages api) fuel :
  forall st collected token remaining n,
    remaining <= Z.of_nat fuel ->
    let r := fetch_loop api user_id exclude start_time end_time
               fuel st collected token remaining n in
    run_status r <> Running /\ (Z.of_nat (run_requests r) <= Z.of_nat n + Z.max 0 remaining).
Proof.
  induction fuel as [|fuel IH]; intros st collected token remaining n Hfuel; cbn [fetch_loop].
  - destruct (remaining >? 0) eqn:Hpos; cbn; [lia|]. split; [discriminate|lia].
  - destruct (remaining >? 0) eqn:Hpos; cbn; [|split; [discriminate|lia]].
    apply Z.gtb_lt in Hpos.
    destruct (api st _) as [st' [resp|e]] eqn:Hcall; [|cbn; split; [discriminate|lia]].
    destruct (data resp) as [items|] eqn:Hdata; [|cbn; split; [discriminate|lia]].
    pose proof (Hapi _ _ _ _ _ Hcall Hdata) as Hne.
    assert (1 <= Z.of_nat (length items)) by (destruct items; [congruence|cbn; lia]).
    destruct (negb _); [cbn; split; [discriminate|lia]|].
    destruct (IH st' (collected ++ items) (next_token resp)
                 (remaining - Z.of_nat (length items)) (S n)) as (H1 & H2); [lia|].
    split; [exact H1|]. lia.
Qed.

End Journal.

Lemma feed_server_nonempty : nonempty_pages feed_server.
Proof.
  intros feed req rest resp items Hcall Hdata.
  unfold feed_server in Hcall. injection Hcall as _ <-. cbn in Hdata.
  destruct (take _ feed); [discriminate|]. now injection Hdata as <-.
Qed.

(** X9: every request of a [get_user_tweets] call asks for between 1 and
    100 posts and for no more than [max(1, max_results)], names the user
    and carries the same filters and fields; the first request has no token
    and each later one the [next_token] of the response before it. Keeping
    the journal does not change the run. *)
Theorem get_user_tweets_requests {St} (api : St -> Request -> St * result Response)
    fuel st user_id max_results er ert start_time end_time :
  let r := get_user_tweets_run (logged api) fuel (st, []) user_id max_results
             er ert start_time end_time in
  let r0 := get_user_tweets_run api fuel st user_id max_results
              er ert start_time end_time in
  let log := snd (run_state r) in
  (run_status r = run_status r0 /\ run_collected r = run_collected r0 /\
   run_requests r = run_requests r0) /\
  length log = run_requests r0 /\
  Forall (fun c => well_formed user_id (exclude_list er ert) start_time end_time
                     (Z.max 1 max_results) (fst c)) log /\
  chained None log.
Proof.
  intros r r0 log. subst log r r0. unfold get_user_tweets_run.
  destruct (fetch_loop_logged api user_id (exclude_list er ert) start_time end_time
              fuel st [] [] None (Z.max 1 max_results) O) as (_ & H2 & H3 & H4).
  destruct (fetch_loop_journal api user_id (exclude_list er ert) start_time end_time
              fuel st [] [] None (Z.max 1 max_results) O)
    as (log' & H5 & H6 & H7 & _ & H9 & _).
  cbn zeta in *. rewrite H5. cbn [app] in *.
  split; [auto|]. split; [|auto]. rewrite <- H4, H9. reflexivity.
Qed.

(** X10: what [get_user_tweets] returns is the posts of the pages it
    received, page after page in the order received, nothing dropped and
    nothing repeated. *)
Theorem get_user_tweets_concatenates_pages {St}
    (api : St -> Request -> St * result Response)
    fuel st user_id max_results er ert start_time end_time tweets :
  get_user_tweets api fuel st user_id max_results er ert start_time end_time
  = Some (Return tweets) ->
  let r := get_user_tweets_run (logged api) fuel (st, []) user_id max_results
             er ert start_time end_time in
  Forall (fun c => exists resp, snd c = Return resp) (snd (run_state r)) /\
  tweets = concat (map (fun c => page_items (snd c)) (snd (run_state r))).
Proof.
  intros Hret r. subst r. unfold get_user_tweets, get_user_tweets_run in *.
  destruct (fetch_loop_logged api user_id (exclude_list er ert) start_time end_time
              fuel st [] [] None (Z.max 1 max_results) O) as (_ & H2 & H3 & _).
  destruct (fetch_loop_journal api user_id (exclude_list er ert) start_time end_time
              fuel st [] [] None (Z.max 1 max_results) O)
    as (log' & H5 & _ & _ & H8 & _ & H10).
  cbn zeta in *. rewrite H5. cbn [app] in *.
  rewrite H2 in H8. rewrite H3 in H10.
  destruct (run_status _); try discriminate.
  injection Hret as <-. split; [exact H8|exact H10].
Qed.

Lemma get_user_tweets_concatenates_pages_witness :
  get_user_tweets feed_server 5 sample_feed "42" 2 true true None None
  = Some (Return [mkTweet "1" "first"; mkTweet "2" "second"]) /\
  [mkTweet "1" "first"; mkTweet "2" "second"]
  = concat (map (fun c => page_items (snd c))
      (snd (run_state (get_user_tweets_run (logged feed_server) 5 (sample_feed, [])
                         "42" 2 true true None None)))).
Proof.
  split; [reflexivity|].
  apply (get_user_tweets_concatenates_pages feed_server 5 sample_feed "42" 2
           true true None None [mkTweet "1" "first"; mkTweet "2" "second"]).
  reflexivity.
Defined.

(** X11: against an upstream whose pages, when present, are never empty,
    [get_user_tweets] ends after at most [max(1, max_results)] requests. *)
Theorem get_user_tweets_ends {St} (api : St -> Request -> St * result Response)
    (Hapi : nonempty_pages api) fuel st user_id max_results er ert start_time end_time :
  Z.max 1 max_results <= Z.of_nat fuel ->
  is_Some (get_user_tweets api fuel st user_id max_results er ert start_time end_time) /\
  Z.of_nat (run_requests (get_user_tweets_run api fuel st user_id max_results
                            er ert start_time end_time)) <= Z.max 1 max_results.
Proof.
  intros Hfuel. unfold get_user_tweets, get_user_tweets_run.
  destruct (fetch_loop_ends api user_id (exclude_list er ert) start_time end_time Hapi
              fuel st [] None (Z.max 1 max_results) O Hfuel) as (H1 & H2).
  cbn zeta in *. split; [|lia].
  destruct (run_status _); [eexists; reflexivity|eexists; reflexivity|congruence].
Qed.

Lemma get_user_tweets_ends_witness :
  nonempty_pages feed_server /\ Z.max 1 2 <= Z.of_nat 5 /\
  is_Some (get_user_tweets feed_server 5 sample_feed "42" 2 true true None None).
Proof.
  split; [exact feed_server_nonempty|]. split; [lia|].
  apply (get_user_tweets_ends feed_server feed_server_nonempty 5 sample_feed "42" 2
           true true None None).
  lia.
Defined.

(** *** An honest timeline *)

Lemma feed_loop user_id exclude start_time end_time fuel :
  forall feed collected token remaining n,
    0 <= remaining <= Z.of_nat fuel ->
    let r := fetch_loop feed_server user_id exclude start_time end_time
               fuel feed collected token remaining n in
    run_status r = Returned /\
    run_collected r = collected ++ take (Z.to_nat remaining) feed.
Proof.
  induction fuel as [|fuel IH]; intros feed collected token remaining n Hrem;
    cbn [fetch_loop].
  - assert (remaining = 0) as -> by lia. cbn. now rewrite app_nil_r.
  - destruct (remaining >? 0) eqn:Hpos.
    2:{ assert (remaining = 0) as -> by lia. cbn. now rewrite app_nil_r. }
    apply Z.gtb_lt in Hpos.
    match goal with |- context [feed_server feed ?q] =>
      remember (feed_server feed q) as c eqn:Hc
    end.
    unfold feed_server in Hc. cbn [req_max_results] in Hc.
    set (k := Z.to_nat (Z.min 100 remaining)) in Hc.
    assert (Hk : (1 <= k <= Z.to_nat remaining)%nat) by (unfold k; lia).
    destruct (take k feed) as [|p page] eqn:Hpage.
    + subst c. cbn. destruct (take_nil_inv _ _ Hpage) as [?| ->]; [lia|].
      now rewrite take_nil, app_nil_r.
    + destruct (drop k feed) as [|q rest] eqn:Hrest; subst c; cbn [data];
        unfold next_token; cbn [meta].
      * destruct (decide (∅ =@{gmap string string} ∅)); [|congruence].
        cbn. split; [reflexivity|]. f_equal. rewrite <- Hpage.
        apply drop_nil_inv in Hrest. rewrite !take_ge by lia. reflexivity.
      * destruct (decide (_ = ∅)) as [Hempty|_];
          [exfalso; exact (map_non_empty_singleton _ _ Hempty)|].
        rewrite lookup_singleton_eq. cbn [truthy_opt truthy is_empty negb].
        assert (Hlen : length (p :: page) = k).
        { rewrite <- Hpage. apply length_take_le.
          assert (length (drop k feed) <> 0)%nat by (rewrite Hrest; discriminate).
          rewrite length_drop in H. lia. }
        destruct (IH (q :: rest) (collected ++ p :: page) (Some "more")
                     (remaining - Z.of_nat (length (p :: page))) (S n)) as (H1 & H2);
          [lia|].
        split; [exact H1|]. rewrite H2, <- app_assoc. f_equal.
        rewrite <- Hpage, <- Hrest, take_take_drop. f_equal. rewrite Hpage. lia.
Qed.

(** X12: against a timeline that serves its posts page by page, in order
    and with a token while posts remain, [get_user_tweets] returns exactly
    the first [max(1, max_results)] posts, or the whole timeline when it
    is shorter. *)
Theorem get_user_tweets_first_posts fuel feed user_id max_results er ert start_time end_time :
  Z.max 1 max_results <= Z.of_nat fuel ->
  get_user_tweets feed_server fuel feed user_id max_results er ert start_time end_time
  = Some (Return (take (Z.to_nat (Z.max 1 max_results)) feed)).
Proof.
  intros Hfuel. unfold get_user_tweets, get_user_tweets_run.
  destruct (feed_loop user_id (exclude_list er ert) start_time end_time fuel
              feed [] None (Z.max 1 max_results) O) as (H1 & H2); [lia|].
  cbn zeta in *. now rewrite H1, H2.
Qed.

Lemma get_user_tweets_first_posts_witness :
  Z.max 1 2 <= Z.of_nat 5 /\
  get_user_tweets feed_server 5 sample_feed "42" 2 true true None None
  = Some (Return (take 2 sample_feed)).
Proof.
  split; [lia|].
  apply (get_user_tweets_first_posts 5 sample_feed "42" 2 true true None None). lia.
Defined.

End FetchFacts.

(** ** More on domains *)

Module LexiconFacts.
Import PyStr PyExn Utils Domain DomainSpec UtilsFacts DomainFacts.

(** *** Filling a dictionary *)

Section DictSet.
Context {V : Type}.

Lemma dict_keys_set (d : Dict V) k v :
  dict_keys (dict_set d k v)
  = if decide (k ∈ dict_keys d) then dict_keys d else dict_keys d ++ [k].
Proof.
  unfold dict_keys. induction d as [|[k0 v0] d IH]; cbn [dict_set map fst].
  - destruct (decide (k ∈ [])) as [H|_]; [inversion H|reflexivity].
  - destruct (decide (k0 = k)) as [->|Hne]; cbn [map fst].
    + destruct (decide (k ∈ k :: map fst d)) as [_|H]; [reflexivity|].
      exfalso. apply H. constructor.
    + rewrite IH.
      destruct (decide (k ∈ map fst d)) as [Hin|Hin],
               (decide (k ∈ k0 :: map fst d)) as [Hin'|Hin']; try reflexivity.
      * exfalso. apply Hin'. now constructor.
      * rewrite elem_of_cons in Hin'. destruct Hin'; congruence.
Qed.

Lemma dict_set_NoDup (d : Dict V) k v :
  NoDup (dict_keys d) -> NoDup (dict_keys (dict_set d k v)).
Proof.
  intros Hd. rewrite dict_keys_set. destruct (decide (k ∈ dict_keys d)); [exact Hd|].
  apply NoDup_app. split; [exact Hd|]. split; [|apply NoDup_singleton].
  intros x Hx Hx'. apply list_elem_of_singleton in Hx'. now subst.
Qed.

Lemma dict_set_Forall (P : string * V -> Prop) (d : Dict V) k v :
  Forall P d -> P (k, v) -> Forall P (dict_set d k v).
Proof.
  intros Hd Hkv. induction d as [|[k0 v0] d IH]; cbn [dict_set].
  - now constructor.
  - inversion Hd; subst. destruct (decide (k0 = k)) as [->|Hne]; constructor; auto.
Qed.

End DictSet.

(** *** Keywords *)

Lemma keyword_ok_made s : truthy (strip s) = true -> keyword_ok (lower (strip s)) = true.
Proof.
  intros Hs. unfold keyword_ok.
  rewrite lower_idem, strip_lower, strip_idem, !String.eqb_refl, is_empty_lower.
  unfold truthy in Hs. now rewrite Hs.
Qed.

Section Loader.
Variable str_title : string -> string.
Variable py_str : JSON -> string.

Lemma entry_keywords_ok v :
  Forall (fun kw => keyword_ok kw = true) (entry_keywords py_str v).
Proof.
  destruct v; try constructor. cbn [entry_keywords].
  induction items as [|k ks IH]; [constructor|].
  rewrite filter_cons. destruct (decide _) as [Hk|Hk]; [|exact IH].
  cbn [map]. constructor; [now apply keyword_ok_made|exact IH].
Qed.

Lemma add_entry_alt lex raw v :
  add_entry str_title py_str lex (raw, v)
  = match entry_keywords py_str v with
    | [] => lex
    | kw => dict_set lex (_normalize_label str_title raw) kw
    end.
Proof.
  destruct v; try reflexivity. unfold add_entry, entry_keywords.
  now destruct (map _ _).
Qed.

Lemma add_entries_ok items : forall lex,
  NoDup (dict_keys lex) -> Forall entry_ok lex ->
  NoDup (dict_keys (fold_left (add_entry str_title py_str) items lex)) /\
  Forall entry_ok (fold_left (add_entry str_title py_str) items lex).
Proof.
  induction items as [|[raw v] items IH]; intros lex Hnd Hok; cbn [fold_left]; [auto|].
  apply IH; rewrite add_entry_alt; pose proof (entry_keywords_ok v) as Hkw;
    destruct (entry_keywords py_str v) as [|kw kws]; auto.
  - now apply dict_set_NoDup.
  - apply dict_set_Forall; [exact Hok|]. split; [discriminate|exact Hkw].
Qed.

(** A lookup in the lexicon built from the file finds the last entry that counts. *)
Lemma add_entries_lookup lbl items : forall lex,
  dict_get (fold_left (add_entry str_title py_str) items lex) lbl
  = match last_keywords str_title py_str lbl items with
    | Some kw => Some kw
    | None => dict_get lex lbl
    end.
Proof.
  induction items as [|[raw v] items IH]; intros lex; cbn [fold_left last_keywords];
    [reflexivity|].
  rewrite IH. destruct (last_keywords str_title py_str lbl items); [reflexivity|].
  rewrite add_entry_alt.
  destruct (entry_keywords py_str v) as [|kw kws];
    [now destruct (decide _)|].
  rewrite dict_get_set. now destruct (decide _).
Qed.

Lemma builtin_globals_ok : globals_ok builtin_globals.
Proof.
  unfold globals_ok. cbn [DEFAULT_DOMAIN_LABELS KEYWORD_LEXICON builtin_globals].
  split; [reflexivity|]. split; [|split; [discriminate|]].
  - apply (bool_decide_unpack _). vm_compute. reflexivity.
  - apply Forall_forall. intros kv Hkv. apply list_elem_of_In in Hkv.
    repeat (destruct Hkv as [<-|Hkv];
            [split; [discriminate|]; apply Forall_forall; intros kw Hkw; apply list_elem_of_In in Hkw;
             repeat (destruct Hkw as [<-|Hkw]; [vm_compute; reflexivity|]); destruct Hkw|]).
    destruct Hkv.
Qed.

(** X13: whatever the lexicon file holds, after the import the default
    labels are the keys of the lexicon in the lexicon's order, without
    repetition and at least one; every label has at least one keyword, and
    every keyword is non-empty, trimmed and in lower case, which is the
    form the matcher compares with. *)
Theorem import_module_globals_ok (w : World) (g : Globals) :
  import_module str_title py_str w = Return g -> globals_ok g.
Proof.
  unfold import_module, _load_external_lexicon. cbn [bind].
  destruct (try_except _ _) as [[|e ext]|] eqn:Hload;
    try (intros [= <-]; exact builtin_globals_ok).
  intros [= <-]. unfold globals_ok. cbn [DEFAULT_DOMAIN_LABELS KEYWORD_LEXICON].
  split; [reflexivity|].
  assert (Hlex : NoDup (dict_keys (e :: ext)) /\ Forall entry_ok (e :: ext)).
  { unfold load_body in Hload.
    destruct (candidate_path w None) as [p|]; cbn [bind try_except] in Hload;
      [|discriminate].
    destruct (file_at w p) as [| | |[]]; cbn [try_except] in Hload; try discriminate.
    destruct (add_entries_ok items [] (NoDup_nil_2) (Forall_nil_2 _)) as (H1 & H2).
    destruct (fold_left (add_entry str_title py_str) items []); [discriminate|].
    injection Hload as <- <-. auto. }
  destruct Hlex as (H1 & H2). split; [exact H1|]. split; [discriminate|exact H2].
Qed.

(** X14: when the file holds a JSON object, the loader returns a lexicon in
    which a label is bound to the keywords of the last entry of the file
    that has this label once normalised and a list value with a keyword
    that is not blank; entries without such a value are ignored, and the
    loader returns [None] when no entry is left. *)
Theorem load_external_lexicon_last_entry_wins (w : World) (path : option string) p items :
  candidate_path w path = Return p ->
  file_at w p = Parsed (JObject items) ->
  exists lex,
    _load_external_lexicon str_title py_str w path
    = Return (match lex with [] => None | _ => Some lex end) /\
    NoDup (dict_keys lex) /\
    forall lbl, dict_get lex lbl = last_keywords str_title py_str lbl items.
Proof.
  intros Hp Hfile. exists (fold_left (add_entry str_title py_str) items []).
  split; [|split].
  - unfold _load_external_lexicon, load_body. rewrite Hp. cbn [bind]. rewrite Hfile.
    reflexivity.
  - exact (proj1 (add_entries_ok items [] NoDup_nil_2 (Forall_nil_2 _))).
  - intros lbl. rewrite add_entries_lookup.
    now destruct (last_keywords str_title py_str lbl items).
Qed.

End Loader.

Lemma import_module_globals_ok_witness :
  import_module ascii_title no_str (file_world other_lexicon_file) = Return other_globals /\
  globals_ok other_globals.
Proof.
  split; [reflexivity|].
  apply (import_module_globals_ok ascii_title no_str (file_world other_lexicon_file)).
  reflexivity.
Defined.

Lemma load_external_lexicon_last_entry_wins_witness :
  candidate_path (file_world other_lexicon_file) None
  = Return "/app/domain_classification.json" /\
  exists lex,
    _load_external_lexicon ascii_title no_str (file_world other_lexicon_file) None
    = Return (match lex with [] => None | _ => Some lex end) /\
    dict_get lex "Other" = Some ["misc"].
Proof.
  split; [reflexivity|].
  destruct (load_external_lexicon_last_entry_wins ascii_title no_str
              (file_world other_lexicon_file) None "/app/domain_classification.json"
              [("other", JArray [JString "misc"])] eq_refl eq_refl) as (lex & H1 & _ & H3).
  exists lex. split; [exact H1|]. rewrite H3. reflexivity.
Defined.

End LexiconFacts.

Module ClassifierFacts.
Import PyStr PyExn Utils Domain DomainSpec UtilsFacts DomainFacts.

(** *** Hit counts *)

Lemma starts_with_lower p s : starts_with p (lower s) = true -> lower p = p.
Proof.
  revert s. induction p as [|a p IH]; intros s; [reflexivity|].
  destruct s as [|b s]; [discriminate|]. cbn [lower starts_with].
  intros (Hab%Ascii.eqb_eq & Hp)%andb_true_iff. subst a.
  now rewrite lower_char_idem, (IH s Hp).
Qed.

Lemma contains_lower p s : contains p (lower s) = true -> lower p = p.
Proof.
  induction s as [|c s IH]; cbn [lower contains].
  - rewrite orb_false_r. apply (starts_with_lower p "").
  - intros [H|H]%orb_true_iff; [exact (starts_with_lower p (String c s) H)|auto].
Qed.

Lemma filter_length_le {A} (P : A -> Prop) `{!forall x, Decision (P x)} (l : list A) :
  (length (filter P l) <= length l)%nat.
Proof.
  induction l as [|x l IH]; [reflexivity|]. rewrite filter_cons.
  destruct (decide (P x)); cbn [length]; lia.
Qed.

Lemma keyword_score_range (text : string) (keywords : list string) :
  0 <= _keyword_score text keywords <= Z.of_nat (length keywords).
Proof.
  unfold _keyword_score.
  pose proof (filter_length_le (fun kw => contains kw (lower text) = true) keywords). lia.
Qed.

(** X15: [_keyword_score] counts every keyword of the list at most once, so
    it lies between 0 and the length of the list; it ignores the case of
    the text, and a keyword that is not in lower case never counts. *)
Theorem keyword_score_facts (text : string) (keywords : list string) :
  0 <= _keyword_score text keywords <= Z.of_nat (length keywords) /\
  _keyword_score (lower text) keywords = _keyword_score text keywords /\
  _keyword_score text keywords
  = _keyword_score text (filter (fun kw => lower kw = kw) keywords).
Proof.
  split; [apply keyword_score_range|]. unfold _keyword_score. split.
  - now rewrite lower_idem.
  - f_equal. f_equal. induction keywords as [|kw kws IH]; [reflexivity|].
    rewrite !filter_cons.
    destruct (decide (lower kw = kw)) as [Hlow|Hlow].
    + rewrite filter_cons. destruct (decide (contains kw (lower text) = true)); now rewrite IH.
    + destruct (decide (contains kw (lower text) = true)) as [Hc|Hc]; [|exact IH].
      exfalso. apply Hlow. eapply contains_lower, Hc.
Qed.

Section Rows.
Variable str_title : string -> string.
Variable py_str : JSON -> string.

Lemma score_of_bounds g text l :
  0 <= score_of g text l <= Z.of_nat (length (keywords_of g l)).
Proof. unfold score_of. apply keyword_score_range. Qed.

(** X16: every row [classify_domains_keyword] returns is either
    [("Other", 0.0)] or carries one of the normalised candidate labels with
    a whole confidence between 1 and the number of that label's keywords. *)
Theorem keyword_rows_in_range w g df candidate_labels :
  import_module str_title py_str w = Return g ->
  exists out,
    classify_domains_keyword str_title g df candidate_labels = Return out /\
    length out = length df /\
    Forall2
      (fun r r' =>
         text_clean r' = text_clean r /\
         ((domain_label r' = Some "Other" /\
           domain_confidence r' = Some (Binary64 (S754_zero false))) \/
          exists label n,
            domain_label r' = Some label /\ domain_confidence r' = Some (OfInt n) /\
            label ∈ labels_of str_title g candidate_labels /\
            1 <= n <= Z.of_nat (length (keywords_of g label))))
      df out.
Proof.
  intros Hg.
  set (labels := labels_of str_title g candidate_labels).
  set (P := fun (text : string) (a : string * PyFloat) =>
         a = ("Other", Binary64 (S754_zero false)) \/
         exists label n, a = (label, OfInt n) /\ label ∈ labels /\
                         1 <= n <= Z.of_nat (length (keywords_of g label))).
  destruct (classify_domains_keyword_rows str_title g df candidate_labels P)
    as (out & Hout & Hrows).
  - intros text.
    destruct (pick_label_spec g labels text) as (before & best & after & Hl & _ & _ & Hpick).
    { apply labels_of_nonempty. eapply import_module_labels, Hg. }
    eexists. split; [exact Hpick|]. unfold P.
    destruct (score_of g text best =? 0) eqn:Hz; [now left|right].
    apply Z.eqb_neq in Hz. pose proof (score_of_bounds g text best).
    exists best, (score_of g text best). split; [reflexivity|]. split; [|lia].
    rewrite Hl, elem_of_app, elem_of_cons. auto.
  - exists out. split; [exact Hout|]. split; [symmetry; exact (Forall2_length _ _ _ Hrows)|].
    eapply Forall2_impl; [exact Hrows|].
    intros r r' (a & -> & [->|(label & n & -> & Hin & Hn)]); (split; [reflexivity|]).
    + now left.
    + right. exists label, n. auto.
Qed.

(** X17: when no candidate label has an entry in the lexicon, for instance
    because the labels are spelled differently from its keys, every row is
    labelled [("Other", 0.0)]. *)
Theorem unknown_labels_give_other w g df candidate_labels :
  import_module str_title py_str w = Return g ->
  (forall l, l ∈ labels_of str_title g candidate_labels ->
             dict_get (KEYWORD_LEXICON g) l = None) ->
  classify_domains_keyword str_title g df candidate_labels
  = Return (map (set_domain ("Other", Binary64 (S754_zero false))) df).
Proof.
  intros Hg Hunknown.
  set (labels := labels_of str_title g candidate_labels).
  destruct (classify_domains_keyword_rows str_title g df candidate_labels
              (fun _ a => a = ("Other", Binary64 (S754_zero false))))
    as (out & Hout & Hrows).
  - intros text.
    destruct (pick_label_spec g labels text) as (before & best & after & Hl & _ & _ & Hpick).
    { apply labels_of_nonempty. eapply import_module_labels, Hg. }
    eexists. split; [exact Hpick|].
    assert (Hz : score_of g text best = 0).
    { unfold score_of, keywords_of. rewrite Hunknown; [reflexivity|].
      fold labels. rewrite Hl, elem_of_app, elem_of_cons. auto. }
    now rewrite Hz.
  - rewrite Hout. f_equal. clear Hout.
    induction Hrows as [|r r' df out (a & -> & ->) _ IH]; [reflexivity|].
    cbn [map]. now rewrite IH.
Qed.

End Rows.

Lemma keyword_rows_in_range_witness :
  import_module ascii_title no_str no_file_world = Return builtin_globals /\
  exists out,
    classify_domains_keyword ascii_title builtin_globals sample_frame None = Return out /\
    length out = length sample_frame.
Proof.
  split; [reflexivity|].
  destruct (keyword_rows_in_range ascii_title no_str no_file_world builtin_globals
              sample_frame None eq_refl) as (out & Hout & Hlen & _).
  exists out. auto.
Defined.

Lemma unknown_labels_give_other_witness :
  import_module ascii_title no_str no_file_world = Return builtin_globals /\
  (forall l, l ∈ labels_of ascii_title builtin_globals (Some ["food"; "fashion"]) ->
             dict_get (KEYWORD_LEXICON builtin_globals) l = None) /\
  classify_domains_keyword ascii_title builtin_globals sample_frame (Some ["food"; "fashion"])
  = Return (map (set_domain ("Other", Binary64 (S754_zero false))) sample_frame).
Proof.
  assert (H : forall l, l ∈ labels_of ascii_title builtin_globals (Some ["food"; "fashion"]) ->
                        dict_get (KEYWORD_LEXICON builtin_globals) l = None).
  { intros l Hl. apply list_elem_of_In in Hl. vm_compute in Hl.
    destruct Hl as [<-|[<-|[]]]; reflexivity. }
  split; [reflexivity|]. split; [exact H|].
  apply (unknown_labels_give_other ascii_title no_str no_file_world builtin_globals
           sample_frame (Some ["food"; "fashion"]) eq_refl H).
Defined.

(** *** The zero-shot strategy *)

Section ZeroShot.
Variable str_title : string -> string.

(** X18: without a pipeline the zero-shot strategy raises its
    [RuntimeError] for every frame, the empty one included, and so does
    [analyze_domains] for a method that names it; there is no fall-back to
    the keyword strategy. *)
Theorem zero_shot_unavailable g df candidate_labels method :
  method_norm method = "zero-shot" ->
  classify_domains_zero_shot str_title None g df candidate_labels
  = Raise (RuntimeError
             "Zero-shot classifier requires 'transformers' (and a backend like PyTorch)."
             OtherException) /\
  analyze_domains str_title None g df candidate_labels method
  = classify_domains_zero_shot str_title None g df candidate_labels /\
  forall out, analyze_domains str_title None g df candidate_labels method <> Return out.
Proof.
  intros Hm. unfold analyze_domains. rewrite Hm.
  destruct (decide ("zero-shot" = "zero-shot")); [|congruence].
  repeat split. discriminate.
Qed.

Lemma infer_blank zs labels text :
  infer zs labels text
  = if blank text then Return ("Other", Binary64 (S754_zero false))
    else match top_answer zs labels text with
         | Some a => Return a
         | None => Raise IndexError
         end.
Proof.
  unfold infer, blank, top_answer, truthy.
  destruct text as [|c text]; [reflexivity|]. cbn [is_empty negb orb].
  destruct (is_empty (strip (String c text))); cbn [negb]; [reflexivity|].
  now destruct (fst (zs (String c text) labels)), (snd (zs (String c text) labels)).
Qed.

(** X19: with a pipeline that gives at least one label and one score for
    every text, [classify_domains_zero_shot] returns a row for every row:
    [("Other", 0.0)] for a blank text, whatever the pipeline would say, and
    the pipeline's first label and first score for any other text. *)
Theorem zero_shot_rows zs g df candidate_labels :
  (forall text, top_answer zs (labels_of str_title g candidate_labels) text <> None) ->
  exists out,
    classify_domains_zero_shot str_title (Some zs) g df candidate_labels = Return out /\
    Forall2
      (fun r r' =>
         if blank (text_clean r)
         then r' = set_domain ("Other", Binary64 (S754_zero false)) r
         else exists a,
             top_answer zs (labels_of str_title g candidate_labels) (text_clean r) = Some a /\
             r' = set_domain a r)
      df out.
Proof.
  intros Hzs. unfold classify_domains_zero_shot, _get_zero_shot_pipeline. cbn [bind].
  set (labels := labels_of str_title g candidate_labels) in *.
  set (P := fun (text : string) (a : string * PyFloat) =>
         if blank text then a = ("Other", Binary64 (S754_zero false))
         else top_answer zs labels text = Some a).
  destruct (series_apply_Forall2 (infer zs labels) P (map text_clean df))
    as (bs & Happ & Hall).
  - intros text. rewrite infer_blank. unfold P.
    destruct (blank text); [eauto|].
    destruct (top_answer zs labels text) as [a|] eqn:Ha; [eauto|].
    now destruct (Hzs text).
  - rewrite Happ. cbn [bind]. eexists. split; [reflexivity|].
    eapply Forall2_impl; [apply (zip_set_domain P), Hall|].
    intros r r' (a & -> & Ha). unfold P in Ha.
    destruct (blank (text_clean r)); [now subst|eauto].
Qed.

End ZeroShot.

Lemma zero_shot_rows_witness :
  (forall text, top_answer sample_pipeline (labels_of ascii_title builtin_globals None) text
                <> None) /\
  exists out,
    classify_domains_zero_shot ascii_title (Some sample_pipeline) builtin_globals
      sample_frame None = Return out /\
    length out = length sample_frame.
Proof.
  assert (H : forall text,
             top_answer sample_pipeline (labels_of ascii_title builtin_globals None) text
             <> None) by (intros text; vm_compute; discriminate).
  split; [exact H|].
  destruct (zero_shot_rows ascii_title sample_pipeline builtin_globals sample_frame None H)
    as (out & Hout & Hrows).
  exists out. split; [exact Hout|]. symmetry. exact (Forall2_length _ _ _ Hrows).
Defined.

Lemma zero_shot_unavailable_witness :
  method_norm (Some " Zero-Shot ") = "zero-shot" /\
  forall out, analyze_domains ascii_title None builtin_globals [] None (Some " Zero-Shot ")
              <> Return out.
Proof.
  split; [reflexivity|].
  apply (zero_shot_unavailable ascii_title builtin_globals [] None (Some " Zero-Shot ")).
  reflexivity.
Defined.

End ClassifierFacts.

(** ** The constructor *)

Module ClientInitFacts.
Import PyStr PyExn ClientInit.

(** X20: the constructor takes the token from the environment when that
    one is a non-empty string and from the secrets otherwise, and succeeds
    exactly when the token taken is a non-empty string that is no
    placeholder; the client then gets this token and does not wait on rate
    limits. *)
Theorem init_succeeds_iff (s : Settings) (args : ClientArgs) :
  init s = Return args <->
  exists token,
    or_else (env_token s) (_get_secret s) = Some token /\
    truthy token = true /\ is_placeholder token = false /\
    args = {| bearer_token := token; wait_on_rate_limit := false |}.
Proof.
  unfold init.
  destruct (or_else (env_token s) (_get_secret s)) as [token|];
    cbn [truthy_opt default from_option id andb].
  - destruct (truthy token) eqn:Ht; cbn [andb].
    + destruct (is_placeholder token) eqn:Hp.
      * split; [discriminate|]. intros (t & [= <-] & _ & Hp' & _). congruence.
      * rewrite Ht. split.
        -- intros [= <-]. eauto.
        -- intros (t & [= <-] & _ & _ & ->). reflexivity.
    + rewrite Ht. split; [discriminate|]. intros (t & [= <-] & Ht' & _). congruence.
  - split; [discriminate|]. intros (t & Ht & _). discriminate.
Qed.

Lemma init_succeeds_iff_witness :
  init (mkSettings (Some "") (Return (Some "AAAA")))
  = Return {| bearer_token := "AAAA"; wait_on_rate_limit := false |}.
Proof.
  apply (proj2 (init_succeeds_iff (mkSettings (Some "") (Return (Some "AAAA")))
                  {| bearer_token := "AAAA"; wait_on_rate_limit := false |})).
  exists "AAAA". repeat split.
Defined.

(** X21: a placeholder in the environment makes the constructor raise
    [ValueError] whatever the secrets hold, a usable token included. *)
Theorem init_env_placeholder_masks_secret (token : string) (secrets : result (option string)) :
  truthy token = true -> is_placeholder token = true ->
  init (mkSettings (Some token) secrets) = Raise ValueError.
Proof.
  intros Ht Hp. unfold init, or_else. cbn [env_token truthy_opt]. rewrite Ht.
  cbn [truthy_opt default from_option id]. now rewrite Ht, Hp.
Qed.

Lemma init_env_placeholder_masks_secret_witness :
  truthy " your_bearer_token_here " = true /\
  is_placeholder " your_bearer_token_here " = true /\
  init (mkSettings (Some " your_bearer_token_here ") (Return (Some "AAAA"))) = Raise ValueError.
Proof.
  split; [reflexivity|]. split; [reflexivity|].
  apply (init_env_placeholder_masks_secret " your_bearer_token_here " (Return (Some "AAAA")));
    reflexivity.
Defined.

(** Secrets that cannot be read count as no secret: the constructor
    then behaves as if the key were absent from them. *)
Theorem init_unreadable_secrets (env : option string) (e : Exn) :
  init (mkSettings env (Raise e)) = init (mkSettings env (Return None)).
Proof. reflexivity. Qed.

End ClientInitFacts.

(** ** Fetching and preparing *)

Module AppFacts.
Import PyStr PyExn Utils TwitterClient App UtilsFacts TwitterClientFacts CleanTextFacts.

Section Fetch.
Context {St : Type}.
Variable api_get_user : St -> string -> St * result (option User).
Variable api_get_users_tweets : St -> Request -> St * result Response.
Variable created_at_of : Tweet -> option Z.
Variable public_metrics_of : Tweet -> MetricsAttr.

Lemma record_of_fields t p :
  record_of created_at_of public_metrics_of t = Return p ->
  id p = tweet_id t /\ text p = tweet_text t /\ text_clean p = clean_text (Some (text p)).
Proof.
  unfold record_of.
  repeat (destruct (metric _ _ _) as [?|?]; cbn [bind]; [|discriminate]).
  intros [= <-]. cbn. auto.
Qed.

Lemma records_of_rows tweets : forall df,
  records_of created_at_of public_metrics_of tweets = Return df ->
  Forall2 (fun t p => id p = tweet_id t /\ text p = tweet_text t /\
                      text_clean p = clean_text (Some (text p))) tweets df.
Proof.
  induction tweets as [|t tweets IH]; intros df; cbn [records_of].
  - intros [= <-]. constructor.
  - destruct (record_of _ _ t) as [p|] eqn:Hp; cbn [bind]; [|discriminate].
    destruct (records_of _ _ tweets) as [ps|]; cbn [bind]; [|discriminate].
    intros [= <-]. constructor; [now apply record_of_fields|now apply IH].
Qed.

(** X22: for a user name the upstream does not know, [fetch_and_prepare]
    returns the empty frame and leaves the upstream as the lookup left it:
    no timeline request is made. *)
Theorem fetch_unknown_user now fuel st st1 username max_results er ert start_date end_date :
  api_get_user st username = (st1, Return None) ->
  fetch_and_prepare api_get_user api_get_users_tweets created_at_of public_metrics_of
    true now fuel st username max_results er ert start_date end_date
  = Some (st1, Return []).
Proof.
  intros Hu. unfold fetch_and_prepare, get_user_by_username. cbn [negb]. now rewrite Hu.
Qed.

(** X23: against an upstream that returns at most the requested page size, a
    frame that [fetch_and_prepare] returns has at most
    [max(1, max_results)] rows; each row's [text_clean] is [clean_text] of
    its [text], in lower case, trimmed and single-spaced. *)
Theorem fetch_and_prepare_rows (Hapi : respects_page_size api_get_users_tweets)
    client_ok now fuel st username max_results er ert start_date end_date st' df :
  fetch_and_prepare api_get_user api_get_users_tweets created_at_of public_metrics_of
    client_ok now fuel st username max_results er ert start_date end_date
  = Some (st', Return df) ->
  Z.of_nat (length df) <= Z.max 1 max_results /\
  Forall (fun p => text_clean p = clean_text (Some (text p)) /\
                   lower (text_clean p) = text_clean p /\
                   strip (text_clean p) = text_clean p /\
                   single_spaced false (text_clean p) = true) df.
Proof.
  unfold fetch_and_prepare. destruct client_ok; cbn [negb]; [|discriminate].
  destruct (get_user_by_username _ _ _ _) as [st1 [[user|]|e]].
  2:{ intros [= <- <-]. cbn. split; [lia|constructor]. }
  2:{ discriminate. }
  pose proof (run_collected_bound api_get_users_tweets Hapi fuel st1 (user_id user)
                max_results er ert start_date end_date) as Hb.
  destruct (run_status _); try discriminate.
  destruct (run_collected _) as [|t tweets] eqn:Hcol.
  - intros [= <- <-]. cbn. split; [lia|constructor].
  - intros [= <- Hrec]. apply (records_of_rows (t :: tweets)) in Hrec.
    split; [rewrite <- (Forall2_length _ _ _ Hrec); exact Hb|].
    clear Hb Hcol. induction Hrec as [|t' p ts ps (_ & _ & Hc) _ IH]; constructor; [|exact IH].
    split; [exact Hc|]. rewrite Hc.
    destruct (clean_text_normal (Some (text p))) as (Hlow & Hstrip & _).
    split; [exact Hlow|]. split; [exact Hstrip|]. apply clean_text_single_spaced.
Qed.

End Fetch.

Lemma fetch_unknown_user_witness :
  sample_lookup sample_feed "nobody" = (sample_feed, Return None) /\
  fetch_and_prepare sample_lookup feed_server (fun _ => None) (fun _ => MetricsMissing)
    true 0 5 sample_feed "nobody" 10 true true None None
  = Some (sample_feed, Return []).
Proof.
  split; [reflexivity|].
  apply (fetch_unknown_user sample_lookup feed_server (fun _ => None) (fun _ => MetricsMissing)
           0 5%nat sample_feed sample_feed "nobody" 10 true true None None).
  reflexivity.
Defined.

Lemma fetch_and_prepare_rows_witness :
  respects_page_size feed_server /\
  exists st' df,
    fetch_and_prepare sample_lookup feed_server (fun _ => None) (fun _ => MetricsMissing)
      true 0 5 sample_feed "alice" 2 true true None None = Some (st', Return df) /\
    Z.of_nat (length df) <= Z.max 1 2.
Proof.
  split; [exact feed_server_respects|].
  eexists _, _. split; [reflexivity|].
  eapply (fetch_and_prepare_rows sample_lookup feed_server (fun _ => None)
            (fun _ => MetricsMissing) feed_server_respects true 0 5%nat sample_feed
            "alice" 2 true true None None).
  reflexivity.
Defined.

End AppFacts.

(** ** Labels *)

Module LabelFacts.
Import PyStr PyExn Utils Domain TextSpec DomainSpec UtilsFacts CleanTextFacts.

Lemma title_from_cons p c s :
  title_from p (String c s) = String (title_char p c) (title_from (cased c) s).
Proof. reflexivity. Qed.

Lemma title_char_space p c : is_space c = true -> title_char p c = c /\ cased c = false.
Proof. destruct p; each_char c; (discriminate || auto). Qed.

Lemma is_space_title_char p c : is_space (title_char p c) = is_space c.
Proof. destruct p; each_char c. Qed.

Lemma cased_title_char p c : cased (title_char p c) = cased c.
Proof. destruct p; each_char c. Qed.

Lemma title_char_idem p c : title_char p (title_char p c) = title_char p c.
Proof. destruct p; each_char c. Qed.

Lemma title_char_lower p c : is_ascii c = true -> title_char p (lower_char c) = title_char p c.
Proof. destruct p; each_char c; discriminate. Qed.

Lemma cased_lower c : is_ascii c = true -> cased (lower_char c) = cased c.
Proof. each_char c; discriminate. Qed.

Lemma is_empty_title p s : is_empty (title_from p s) = is_empty s.
Proof. now destruct s. Qed.

Lemma title_idem s : forall p, title_from p (title_from p s) = title_from p s.
Proof.
  induction s as [|c s IH]; intros p; [reflexivity|].
  rewrite !title_from_cons, title_char_idem, cased_title_char. now rewrite IH.
Qed.

Lemma title_lower s : forall p,
  all_chars is_ascii s = true -> title_from p (lower s) = title_from p s.
Proof.
  induction s as [|c s IH]; intros p; [reflexivity|]. cbn [all_chars lower].
  intros (Hc & Hs)%andb_true_iff.
  rewrite !title_from_cons, (title_char_lower p c Hc), (cased_lower c Hc). now rewrite IH.
Qed.

Lemma lstrip_title s : lstrip (title_from false s) = title_from false (lstrip s).
Proof.
  induction s as [|c s IH]; [reflexivity|].
  rewrite title_from_cons. cbn [lstrip]. rewrite is_space_title_char.
  destruct (is_space c) eqn:Hc; [|reflexivity].
  destruct (title_char_space false c Hc) as (_ & ->). exact IH.
Qed.

Lemma rstrip_title s : forall p, rstrip (title_from p s) = title_from p (rstrip s).
Proof.
  induction s as [|c s IH]; intros p; [reflexivity|].
  rewrite title_from_cons. cbn [rstrip]. rewrite is_space_title_char, IH, is_empty_title.
  destruct (is_space c && is_empty (rstrip s)); [reflexivity|]. now rewrite title_from_cons.
Qed.

Lemma strip_title s : strip (title_from false s) = title_from false (strip s).
Proof. unfold strip. now rewrite lstrip_title, rstrip_title. Qed.

Lemma sub_multispace_title s : forall b p,
  (b = true -> p = false) ->
  sub_multispace b (title_from p s) = title_from p (sub_multispace b s).
Proof.
  induction s as [|c s IH]; intros b p Hbp; [reflexivity|].
  rewrite title_from_cons. cbn [sub_multispace]. rewrite is_space_title_char.
  destruct (is_space c) eqn:Hc.
  - destruct (title_char_space p c Hc) as (_ & Hcased). rewrite Hcased.
    destruct b.
    + rewrite (Hbp eq_refl). now apply IH.
    + rewrite title_from_cons. f_equal; [now destruct p|]. now apply IH.
  - rewrite title_from_cons. f_equal. now apply IH.
Qed.

Lemma sub_multispace_lower s : forall b,
  sub_multispace b (lower s) = lower (sub_multispace b s).
Proof.
  induction s as [|c s IH]; intros b; [reflexivity|].
  cbn [lower sub_multispace]. rewrite is_space_lower_char.
  destruct (is_space c); [destruct b|]; cbn [lower]; now rewrite IH.
Qed.

Lemma lstrip_sub_multispace s : forall b,
  lstrip (sub_multispace b s) = sub_multispace false (lstrip s).
Proof.
  induction s as [|c s IH]; intros b; [reflexivity|].
  cbn [sub_multispace lstrip]. destruct (is_space c) eqn:Hc.
  - destruct b; [exact (IH true)|]. cbn [lstrip]. exact (IH true).
  - cbn [lstrip sub_multispace]. now rewrite Hc.
Qed.

Lemma rstrip_empty_multispace s :
  is_empty (rstrip s) = true -> sub_multispace true s = "".
Proof.
  induction s as [|c s IH]; [reflexivity|]. cbn [rstrip sub_multispace].
  destruct (is_space c); cbn [andb].
  - destruct (is_empty (rstrip s)); [auto|discriminate].
  - discriminate.
Qed.

Lemma multispace_nonempty s b :
  is_empty (rstrip s) = false -> is_empty (rstrip (sub_multispace b s)) = false.
Proof.
  revert b. induction s as [|c s IH]; intros b; [discriminate|].
  cbn [rstrip sub_multispace]. destruct (is_space c) eqn:Hc; cbn [andb].
  - destruct (is_empty (rstrip s)) eqn:Hs; [discriminate|]. intros _.
    destruct b; [now apply IH|]. cbn [rstrip]. now rewrite (IH true eq_refl), andb_false_r.
  - intros _. cbn [rstrip]. now rewrite Hc.
Qed.

Lemma rstrip_sub_multispace s : forall b,
  rstrip (sub_multispace b s) = sub_multispace b (rstrip s).
Proof.
  induction s as [|c s IH]; intros b; [reflexivity|].
  cbn [sub_multispace rstrip]. destruct (is_space c) eqn:Hc; cbn [andb].
  - destruct (is_empty (rstrip s)) eqn:Hs.
    + rewrite (rstrip_empty_multispace s Hs). now destruct b.
    + cbn [sub_multispace]. rewrite Hc. destruct b; [apply IH|].
      cbn [rstrip]. rewrite (multispace_nonempty s true Hs), andb_false_r. now rewrite IH.
  - cbn [rstrip sub_multispace]. now rewrite Hc, IH.
Qed.

Lemma strip_sub_multispace s :
  strip (sub_multispace false s) = sub_multispace false (strip s).
Proof. unfold strip. now rewrite lstrip_sub_multispace, rstrip_sub_multispace. Qed.

Lemma sub_multispace_idem s :
  sub_multispace false (sub_multispace false s) = sub_multispace false s.
Proof. apply single_spaced_fixed, sub_multispace_single_spaced. Qed.

Lemma is_ascii_space : is_ascii " " = true.
Proof. reflexivity. Qed.

(** X24: on labels of ASCII characters, where [str.title] is [ascii_title],
    [_normalize_label] is idempotent and insensitive to the case of the
    label, to whitespace around it and to repeated whitespace inside it. *)
Theorem normalize_label_stable (label : string) :
  all_chars is_ascii label = true ->
  let norm := _normalize_label ascii_title in
  norm (norm label) = norm label /\
  norm (lower label) = norm label /\
  norm (strip label) = norm label /\
  norm (sub_multispace false label) = norm label.
Proof.
  intros Hascii norm. unfold norm, _normalize_label, ascii_title.
  repeat split.
  - rewrite strip_title, (sub_multispace_title _ false false) by discriminate.
    rewrite title_idem, strip_sub_multispace, strip_idem, sub_multispace_idem.
    reflexivity.
  - rewrite strip_lower, sub_multispace_lower. apply title_lower.
    apply all_chars_sub_multispace; [reflexivity|]. now apply all_chars_strip.
  - now rewrite strip_idem.
  - now rewrite strip_sub_multispace, sub_multispace_idem.
Qed.

Lemma normalize_label_stable_witness :
  all_chars is_ascii "  tech  NOLOGY " = true /\
  _normalize_label ascii_title "  tech  NOLOGY " = "Tech Nology" /\
  _normalize_label ascii_title (lower "  tech  NOLOGY ")
  = _normalize_label ascii_title "  tech  NOLOGY ".
Proof.
  split; [reflexivity|]. split; [reflexivity|].
  apply (normalize_label_stable "  tech  NOLOGY "). reflexivity.
Defined.

End LabelFacts.

(** ** The word cloud *)

Module CloudFacts.
Import PyStr PyExn Utils App UtilsFacts CleanTextFacts.

Lemma join_spaces_blank texts :
  Forall (fun t => all_chars is_space t = true) texts ->
  all_chars is_space (join_spaces texts) = true.
Proof.
  induction 1 as [|t texts Ht _ IH]; [reflexivity|].
  destruct texts as [|t' texts]; [exact Ht|].
  change (join_spaces (t :: t' :: texts)) with (t +:+ " " +:+ join_spaces (t' :: texts)).
  apply all_chars_append; [exact Ht|]. apply all_chars_append; [reflexivity|exact IH].
Qed.

Lemma strip_blank s : all_chars is_space s = true -> strip s = "".
Proof. intros H. unfold strip. now rewrite blank_lstrip. Qed.

(** X25: the text the word cloud is generated from is never blank; when no
    row is other than neutral, or all such rows have blank text, it is the
    stand-in text of the three labels. *)
Theorem wordcloud_text_never_blank (rows : list (string * string)) (text : string) :
  truthy (strip (wordcloud_text text)) = true /\
  (Forall (fun r => snd r <> "Neutral" -> all_chars is_space (fst r) = true) rows ->
   wordcloud_text (cloud_argument rows) = "neutral positive negative").
Proof.
  split.
  - unfold wordcloud_text. destruct (truthy (strip text)) eqn:Ht; [exact Ht|reflexivity].
  - intros Hrows. unfold wordcloud_text.
    assert (Hb : all_chars is_space (cloud_argument rows) = true).
    { unfold cloud_argument. destruct (truthy _) eqn:Hj; [|reflexivity].
      apply join_spaces_blank. apply Forall_forall. intros t Ht.
      apply list_elem_of_In, in_map_iff in Ht as ([t0 l] & <- & Hin).
      apply list_elem_of_In, list_elem_of_filter in Hin as (Hl & Hin).
      rewrite Forall_forall in Hrows. exact (Hrows _ Hin Hl). }
    now rewrite (strip_blank _ Hb).
Qed.

Lemma wordcloud_text_never_blank_witness :
  Forall (fun r => snd r <> "Neutral" -> all_chars is_space (fst r) = true)
         [("fine", "Neutral"); ("", "Positive")] /\
  wordcloud_text (cloud_argument [("fine", "Neutral"); ("", "Positive")])
  = "neutral positive negative".
Proof.
  assert (H : Forall (fun r => snd r <> "Neutral" -> all_chars is_space (fst r) = true)
                     [("fine", "Neutral"); ("", "Positive")]).
  { repeat constructor. cbn. congruence. }
  split; [exact H|].
  apply (proj2 (wordcloud_text_never_blank [("fine", "Neutral"); ("", "Positive")] "") H).
Defined.

End CloudFacts.
